(** * Football match statistics: reader, wins analysis and report targets

    A shallow embedding of the TypeScript sources

      - [MatchData.ts], [MatchResult.ts]      the typed row and the result enum
      - [Analyzers/WinsAnalysis.ts]           the wins counter
      - [ReportTargets/HTMLReport.ts]         the file output target
      - [Summary.ts]                          the orchestrator
      - [CsvFileReader.ts], [MatchReader.ts]  the generic reader and its subclass

    JavaScript strings are modelled as Rocq strings (sequences of bytes, the
    UTF-8 encoding of the text), a value that may be [undefined] at run time
    as [option string], the content of the files as a finite map from paths
    to texts, what a write does to it as a [FileSystem], and a call that may
    throw as a [Completion]. *)

From Stdlib Require Import Ascii DecimalString ZArith.
From Stdlib Require String DecimalNat DecimalFacts.
From stdpp Require Import gmap strings list.

(** ** JavaScript values *)

(** The characters the sources mention. *)
Definition LF : ascii := "010"%char.
Definition COMMA : ascii := ","%char.

(** [row[i]] on an array of strings is [row !! i]: either a string or
    [undefined] ([None]) when [i] is out of range.  [v === s] for such a
    value [v] and a string [s] is strict equality: no coercion, no trimming,
    [undefined] differs from every string. *)
Definition strict_eq (v : option string) (s : string) : bool :=
  match v with
  | Some s' => String.eqb s' s
  | None => false
  end.

(** [ToString] of a value that is a string or [undefined]. *)
Definition ToString (v : option string) : string :=
  match v with
  | Some s => s
  | None => "undefined"
  end.

(** A JavaScript number as far as this program produces them: the result of
    [parseInt] is [NaN], an infinity, the negative zero, or a double that
    is an integer, [Num z] ([Num 0] is the positive zero). *)
Inductive number :=
  | NaN
  | Num (z : Z)
  | NegativeZero
  | Infinity
  | NegativeInfinity.

(** The magnitude of the double nearest to the natural number [m]: [m]
    itself below 2^53; beyond, [m] rounded to 53 significant bits, to the
    nearest, a tie going to the even significand. *)
Definition round53 (m : Z) : Z :=
  if (m <? 2 ^ 53)%Z then m
  else
    let e := (Z.log2 m - 52)%Z in
    let q := (m / 2 ^ e)%Z in
    let r := (m mod 2 ^ e)%Z in
    let half := (2 ^ (e - 1))%Z in
    let q' := if (half <? r)%Z || ((r =? half)%Z && Z.odd q) then (q + 1)%Z else q in
    (q' * 2 ^ e)%Z.

(** The number value of [sign * mathInt] for a sign 1 or -1 and a natural
    number [mathInt], as [parseInt] returns it: a negative zero for a zero
    with a minus sign, an infinity when the rounded magnitude reaches
    2^1024. *)
Definition to_double (sign mathInt : Z) : number :=
  let m := round53 mathInt in
  if (2 ^ 1024 <=? m)%Z then (if (sign <? 0)%Z then NegativeInfinity else Infinity)
  else if (m =? 0)%Z then (if (sign <? 0)%Z then NegativeZero else Num 0)
  else Num (sign * m).

(** A counter that starts at 0 and is incremented once per array element is
    a natural number, and a template literal prints it in decimal. *)
Definition NumberToString (n : nat) : string :=
  NilZero.string_of_uint (Nat.to_uint n).

(** ** MatchResult.ts *)

Module MatchResult.
(** [enum MatchResult { HomeWin = "H", AwayWin = "A", Draw = "D" }]: a
    string enum, whose members are these strings at run time. *)
Definition HomeWin : string := "H".
Definition AwayWin : string := "A".
Definition Draw : string := "D".
End MatchResult.

(** ** MatchData.ts *)

(** [type MatchData = [Date, string, string, number, number, MatchResult,
    string]].  The projections are named after the tuple indices.  The
    string components are whatever [row[i]] was when the tuple was built,
    so they may be [undefined]; the result component is the raw token (the
    source casts it, [row[5] as MatchResult], without a check). *)
Record MatchData {Date : Type} := mkMatchData {
  m0 : Date;            (* date *)
  m1 : option string;   (* home team *)
  m2 : option string;   (* away team *)
  m3 : number;          (* home goals *)
  m4 : number;          (* away goals *)
  m5 : option string;   (* result *)
  m6 : option string    (* competition *)
}.
Arguments MatchData : clear implicits.
Arguments mkMatchData {Date}.

(** ** Exceptions, the file system and the effects of a call *)

(** The two kinds of failure the specification names. *)
Inductive Error :=
  | IOError (path : string)
  | DecodeError (text : string).

(** The outcome of evaluating an expression: a value, or an exception that
    unwinds to the caller. *)
Inductive Completion (A : Type) :=
  | Normal (a : A)
  | Throw (e : Error).
Arguments Normal {A}.
Arguments Throw {A}.

#[global] Instance Completion_ret : MRet Completion := λ A a, Normal a.
#[global] Instance Completion_bind : MBind Completion := λ A B f c,
  match c with
  | Normal a => f a
  | Throw e => Throw e
  end.

(** A call that may read and write files: it takes the content of the
    files, [files !! path] being the text that reading [path] gives if
    there is one, and gives its completion and the content it leaves. *)
Definition IO (A : Type) : Type :=
  gmap string string → Completion A * gmap string string.

#[global] Instance IO_ret : MRet IO := λ A a files, (Normal a, files).
#[global] Instance IO_bind : MBind IO := λ A B f c files,
  match c files with
  | (Normal a, files') => f a files'
  | (Throw e, files') => (Throw e, files')
  end.

(** A completion that touches no file, as a call. *)
Definition lift {A : Type} (c : Completion A) : IO A := λ files, (c, files).

(** What a write does is for the operating system to say: whether it
    succeeds or throws (a directory in the way, no permission, a full
    disk), and which paths name the file written ([report.html] and
    [./report.html] are one file).  The program relies on this much: after
    a write that returns, reading the path gives the data written, all of
    it and nothing else; and a write, whether it returns or throws, leaves
    every file other than the one it names as it was.  What a write that
    throws leaves in its own file is open. *)
Class FileSystem := {
  same_file : string → string → Prop;
  write_file : string → string → IO unit;
  write_file_Normal path data files files' :
    write_file path data files = (Normal (), files') →
    files' !! path = Some data;
  write_file_frame path data files other :
    ¬ same_file path other →
    (write_file path data files).2 !! other = files !! other
}.

Module fs.
(** [fs.readFileSync(path, { encoding: "utf-8" })]: the content of the
    file, an exception when there is none. *)
Definition readFileSync (path : string) : IO string := λ files,
  match files !! path with
  | Some text => (Normal text, files)
  | None => (Throw (IOError path), files)
  end.


(** [fs.writeFileSync(path, data)] *)
Definition writeFileSync {fsys : FileSystem} (path data : string) : IO unit :=
  write_file path data.
End fs.

(** A file system in which every path names a file of its own and the
    writes to the [locked] paths throw: with no path locked, every write
    succeeds. *)
Definition guarded_write (locked : string → bool) (path data : string) : IO unit :=
  λ files,
    if locked path then (Throw (IOError path), files)
    else (Normal (), <[path := data]> files).

Lemma guarded_write_Normal (locked : string → bool) (path data : string)
    (files files' : gmap string string) :
  guarded_write locked path data files = (Normal (), files') →
  files' !! path = Some data.
Proof.
  unfold guarded_write. destruct (locked path); [done|].
  intros [= <-]. apply lookup_insert_eq.
Qed.

Lemma guarded_write_frame (locked : string → bool) (path data : string)
    (files : gmap string string) (other : string) :
  path ≠ other →
  (guarded_write locked path data files).2 !! other = files !! other.
Proof.
  intros Hother. unfold guarded_write. destruct (locked path); [done|].
  by apply lookup_insert_ne.
Qed.

Definition guarded (locked : string → bool) : FileSystem :=
  {| same_file := eq;
     write_file := guarded_write locked;
     write_file_Normal := guarded_write_Normal locked;
     write_file_frame := guarded_write_frame locked |}.

(** ** String.prototype.split and parseInt *)

(** [s.split(sep)] for a separator of one character: the pieces between the
    occurrences of [sep], at least one piece, empty pieces kept. *)
Fixpoint split (sep : ascii) (s : string) : list string :=
  match s with
  | EmptyString => [EmptyString]
  | String c s' =>
      if Ascii.eqb c sep then EmptyString :: split sep s'
      else match split sep s' with
           | piece :: pieces => String c piece :: pieces
           | [] => [String c EmptyString]
           end
  end.

(** [drop_prefix p s] is the rest of [s] after the prefix [p], if [s] starts
    with [p]. *)
Fixpoint drop_prefix (p s : string) : option string :=
  match p, s with
  | EmptyString, _ => Some s
  | String a p', String b s' => if Ascii.eqb a b then drop_prefix p' s' else None
  | String _ _, EmptyString => None
  end.

Definition bytes (l : list nat) : string :=
  String.string_of_list_ascii (map ascii_of_nat l).

(** The white space and line terminator characters that [parseInt] skips, in
    UTF-8: TAB, LF, VT, FF, CR, SP, NBSP, the space separators of Unicode,
    LS, PS and the byte order mark. *)
Definition StrWhiteSpaceChar : list string :=
  map bytes
    ([[9]; [10]; [11]; [12]; [13]; [32]; [194; 160]; [225; 154; 128]]
     ++ map (λ b, [226; 128; b]) [128; 129; 130; 131; 132; 133; 134; 135; 136; 137; 138]
     ++ [[226; 128; 168]; [226; 128; 169]; [226; 128; 175]; [226; 129; 159];
         [227; 128; 128]; [239; 187; 191]]).

Definition drop_white (s : string) : option string :=
  foldr (λ w rest, match drop_prefix w s with Some s' => Some s' | None => rest end)
        None StrWhiteSpaceChar.

(** Leading white space removed; every round removes at least one byte, so
    [fuel = length s] rounds are enough. *)
Fixpoint trim_start (fuel : nat) (s : string) : string :=
  match fuel with
  | 0 => s
  | S fuel' =>
      match drop_white s with
      | Some s' => trim_start fuel' s'
      | None => s
      end
  end.

Definition TrimStart (s : string) : string := trim_start (String.length s) s.

(** The value of a digit in radix [R] (10 or 16), if it is one. *)
Definition digit_value (R : Z) (c : ascii) : option Z :=
  let n := Z.of_nat (nat_of_ascii c) in
  if (48 <=? n)%Z && (n <=? 57)%Z then Some (n - 48)%Z
  else if (R =? 16)%Z && (97 <=? n)%Z && (n <=? 102)%Z then Some (n - 87)%Z
  else if (R =? 16)%Z && (65 <=? n)%Z && (n <=? 70)%Z then Some (n - 55)%Z
  else None.

(** The integer written by the longest prefix of [s] made of digits, [acc]
    if that prefix is empty. *)
Fixpoint parse_digits (R : Z) (s : string) (acc : option Z) : option Z :=
  match s with
  | EmptyString => acc
  | String c s' =>
      match digit_value R c with
      | Some d => parse_digits R s' (Some (R * default 0 acc + d)%Z)
      | None => acc
      end
  end.

(** [parseInt(v)] without a radix: leading white space skipped, an optional
    sign, [0x] or [0X] selects radix 16, then the longest run of digits;
    [NaN] when there is no digit, else the double nearest to the integer
    the digits write (where the language leaves the digits after the
    twentieth to the implementation, this is what Node does).  It never
    throws. *)
Definition parseInt (v : option string) : number :=
  let inputString := TrimStart (ToString v) in
  let '(sign, unsigned) :=
    match inputString with
    | String "-" rest => ((-1)%Z, rest)
    | String "+" rest => (1%Z, rest)
    | _ => (1%Z, inputString)
    end in
  let '(R, digits) :=
    match unsigned with
    | String "0" (String "x" rest) => (16%Z, rest)
    | String "0" (String "X" rest) => (16%Z, rest)
    | _ => (10%Z, unsigned)
    end in
  match parse_digits R digits None with
  | Some mathInt => to_double sign mathInt
  | None => NaN
  end.

(** ** Summary.ts: the two interfaces *)

(** [interface Analyzer { run(matches: MatchData[]): string }] and
    [interface OutputTarget { print(report: string): void }].  An object
    seen through an interface is its method; an implementation is free to
    read and write files and to throw. *)
Module Analyzer.
Record t {Date : Type} := { run : list (MatchData Date) → IO string }.
Arguments t : clear implicits.
End Analyzer.

Module OutputTarget.
Record t := { print : string → IO unit }.
End OutputTarget.

(** ** Analyzers/WinsAnalysis.ts *)

Module WinsAnalysis.
(** [constructor(public team: string)] *)
Record t := new { team : string }.

Section Run.
Context {Date : Type}.

(** The condition of the [if] in the loop body. *)
Definition isWin (self : t) (match_ : MatchData Date) : bool :=
  (strict_eq (m1 match_) (team self) && strict_eq (m5 match_) MatchResult.HomeWin)
  || (strict_eq (m2 match_) (team self) && strict_eq (m5 match_) MatchResult.AwayWin).

(** One iteration of [for (let match of matches)]. *)
Definition step (self : t) (teamWins : nat) (match_ : MatchData Date) : nat :=
  if isWin self match_ then teamWins + 1 else teamWins.

(** The value of [teamWins] after the loop, [let teamWins = 0] before. *)
Definition teamWins (self : t) (matches : list (MatchData Date)) : nat :=
  fold_left (step self) matches 0.

(** [run(matches)] returns [`${this.team} won ${teamWins} games`]. *)
Definition run (self : t) (matches : list (MatchData Date)) : string :=
  team self +:+ " won " +:+ NumberToString (teamWins self matches) +:+ " games".

(** [class WinsAnalysis implements Analyzer] *)
Definition implements (self : t) : Analyzer.t Date :=
  {| Analyzer.run := λ matches, mret (run self matches) |}.
End Run.
End WinsAnalysis.

(** ** ReportTargets/HTMLReport.ts *)

Module HTMLReport.
(** The class has no constructor and no field. *)
Inductive t : Set := new.

(** The template literal [html] of [print], line by line. *)
Definition html (report : string) : string :=
  String LF "        <div>"
  +:+ String LF "            <h1>Analysis Output</h1>"
  +:+ String LF "            <div>" +:+ report +:+ "</div>"
  +:+ String LF "        </div>"
  +:+ String LF "        ".

Section Print.
Context {fsys : FileSystem}.

(** [print(report)] is [fs.writeFileSync("./report.html", html)]. *)
Definition print (self : t) (report : string) : IO unit :=
  fs.writeFileSync "./report.html" (html report).

(** [class HTMLReport implements OutputTarget] *)
Definition implements (self : t) : OutputTarget.t :=
  {| OutputTarget.print := print self |}.
End Print.
End HTMLReport.

(** ** Summary.ts: the orchestrator *)

Module Summary.
Section Summary.
Context {Date : Type} {fsys : FileSystem}.

(** [constructor(public analyzer: Analyzer, public outputTarget:
    OutputTarget)] *)
Record t := new { analyzer : Analyzer.t Date; outputTarget : OutputTarget.t }.

Definition buildAndPrintReport (self : t) (matches : list (MatchData Date)) : IO unit :=
  report ← Analyzer.run (analyzer self) matches;
  OutputTarget.print (outputTarget self) report.

(** [static winsAnalysisWithHtmlReport(teamName)] *)
Definition winsAnalysisWithHtmlReport (teamName : string) : t :=
  new (WinsAnalysis.implements (WinsAnalysis.new teamName))
      (HTMLReport.implements HTMLReport.new).
End Summary.
Arguments t : clear implicits.
End Summary.

(** ** CsvFileReader.ts *)

Module CsvFileReader.
Section CsvFileReader.
Context {T : Type}.

(** [constructor(public filename: string)] and the field [data: T[] =
    []]. *)
Record t := mk { filename : string; data : list T }.
Definition new (filename : string) : t := mk filename [].

(** [text.split("\n").map(row => row.split(","))] *)
Definition rows (text : string) : list (list string) :=
  map (λ row, split COMMA row) (split LF text).

(** [read()], with the abstract method [mapRow] of the subclass as an
    argument.  [.map(this.mapRow)] calls [mapRow] on the rows from first
    to last (with the index and the array as further arguments, which
    [mapRow] does not take); an exception leaves the loop and the method,
    before the assignment to [this.data].  The result is the object after
    the call. *)
Definition read (mapRow : list string → Completion T) (self : t) : IO t :=
  text ← fs.readFileSync (filename self);
  lift (records ← mapM mapRow (rows text);
        mret (mk (filename self) records)).
End CsvFileReader.
Arguments t : clear implicits.
End CsvFileReader.

(** ** MatchReader.ts *)

Module MatchReader.
Section MatchReader.
(** [dateStringToDate] is imported from [utils], which is not among the
    sources: it is a parameter here.  It receives [row[0]] and returns a
    [Date] or throws. *)
Context {Date : Type} (dateStringToDate : option string → Completion Date).

(** [mapRow(row)]: the elements of the array literal are evaluated from
    left to right. *)
Definition mapRow (row : list string) : Completion (MatchData Date) :=
  date ← dateStringToDate (row !! 0);
  mret (mkMatchData date
                    (row !! 1)
                    (row !! 2)
                    (parseInt (row !! 3))
                    (parseInt (row !! 4))
                    (row !! 5)
                    (row !! 6)).

(** [read()] of the subclass [MatchReader extends
    CsvFileReader<MatchData>]. *)
Definition read (self : CsvFileReader.t (MatchData Date))
  : IO (CsvFileReader.t (MatchData Date)) :=
  CsvFileReader.read mapRow self.
End MatchReader.
End MatchReader.

(** ** utils.ts *)

Module utils.
(** A calendar date: year, month (1 to 12) and day of the month. *)
Record CalendarDate := mkDate { year : N; month : N; day : N }.

(** The number written by a non-empty string of decimal digits. *)
Definition decimal (s : string) : option N :=
  match s with
  | EmptyString => None
  | String _ _ =>
      (fix go (s : string) (acc : N) : option N :=
         match s with
         | EmptyString => Some acc
         | String c s' =>
             let n := N_of_ascii c in
             if (48 <=? n)%N && (n <=? 57)%N then go s' (10 * acc + (n - 48))%N
             else None
         end) s 0%N
  end.

Definition leap (y : N) : bool :=
  ((y mod 4 =? 0) && negb (y mod 100 =? 0) || (y mod 400 =? 0))%N.

Definition days_in_month (y m : N) : N :=
  if (m =? 2)%N then (if leap y then 29 else 28)%N
  else if ((m =? 4) || (m =? 6) || (m =? 9) || (m =? 11))%N then 30%N
  else 31%N.

(** Modelled from the spec: [dateStringToDate], which [MatchReader.ts]
    imports from [utils] and which is not among the sources.  The
    specification says that the date field is decoded to a calendar date
    and that decoding fails with a DecodeError when the field is not
    parseable as one; its rows write dates as [YYYY-MM-DD].  The theorems
    on the reader hold for every such helper; this one gives the closed
    examples a date to read. *)
Definition dateStringToDate (dateString : option string) : Completion CalendarDate :=
  match dateString with
  | None => Throw (DecodeError "undefined")
  | Some text =>
      match split "-" text with
      | [yyyy; mm; dd] =>
          match decimal yyyy, decimal mm, decimal dd with
          | Some y, Some m, Some d =>
              if ((1 <=? m) && (m <=? 12) && (1 <=? d) && (d <=? days_in_month y m))%N
              then Normal (mkDate y m d)
              else Throw (DecodeError text)
          | _, _, _ => Throw (DecodeError text)
          end
      | _ => Throw (DecodeError text)
      end
  end.
End utils.

(** ** Sample data *)

Module Sample.
Import utils.

(** The two rows of the first scenario of the specification, decoded, and
    a match between two other teams. *)
Definition A_beats_B : MatchData CalendarDate :=
  mkMatchData (mkDate 2024 1 1) (Some "A") (Some "B") (Num 2) (Num 1) (Some "H") (Some "Cup").
Definition B_draws_A : MatchData CalendarDate :=
  mkMatchData (mkDate 2024 1 2) (Some "B") (Some "A") (Num 0) (Num 0) (Some "D") (Some "Cup").
Definition C_beats_D : MatchData CalendarDate :=
  mkMatchData (mkDate 2024 1 3) (Some "C") (Some "D") (Num 3) (Num 0) (Some "H") (Some "Cup").

Definition football_csv : string := "football.csv".

(** A file system on which every write succeeds, and one on which the
    report cannot be written. *)
Definition disk : FileSystem := guarded (λ _, false).
Definition locked_report : FileSystem := guarded (String.eqb "./report.html").

(** A text of [lines], joined by line feeds. *)
Definition unlines (lines : list string) : string :=
  match lines with
  | [] => EmptyString
  | line :: lines => fold_left (λ text l, text +:+ String LF l) lines line
  end.
End Sample.

(** ** The orchestrator as the specification words it *)

Module Spec.
(** [build_and_print]: invoke the analyzer's [run], then the output
    target's [print] with the result, in that order: [print] acts on the
    files as [run] left them, and is not reached when [run] throws. *)
Definition build_and_print {Date : Type} (analyzer : Analyzer.t Date)
    (target : OutputTarget.t) (matches : list (MatchData Date)) : IO unit :=
  λ files,
    match Analyzer.run analyzer matches files with
    | (Normal summary, files_after_run) =>
        OutputTarget.print target summary files_after_run
    | (Throw e, files_after_run) => (Throw e, files_after_run)
    end.

(** [needle] occurs in [text]. *)
Definition substring (needle text : string) : Prop :=
  ∃ before after, text = before +:+ needle +:+ after.
End Spec.

(** ** The property the specification gives for a win *)

(** A record counts for [team] when the team is the home side and the result
    is a home win, or the team is the away side and the result is an away
    win.  Equality is equality of strings. *)
Definition WinFor {Date : Type} (team : string) (m : MatchData Date) : Prop :=
  (m1 m = Some team ∧ m5 m = Some MatchResult.HomeWin)
  ∨ (m2 m = Some team ∧ m5 m = Some MatchResult.AwayWin).

#[global] Instance WinFor_dec {Date : Type} (team : string) (m : MatchData Date) :
  Decision (WinFor team m).
Proof. unfold WinFor. apply _. Defined.

(** ** Notions for the properties of the reader *)

(** [pieces.join(sep)], the inverse of [split]: the pieces with [sep]
    between them. *)
Fixpoint join (sep : ascii) (pieces : list string) : string :=
  match pieces with
  | [] => EmptyString
  | piece :: rest =>
      match rest with
      | [] => piece
      | _ :: _ => piece +:+ String sep (join sep rest)
      end
  end.

(** The number of occurrences of the character [c] in [s]. *)
Fixpoint count_char (c : ascii) (s : string) : nat :=
  match s with
  | EmptyString => 0
  | String c' s' => (if Ascii.eqb c' c then 1 else 0) + count_char c s'
  end.

(** A field that holds no comma and no line feed. *)
Definition clean (field : string) : Prop :=
  count_char COMMA field = 0 ∧ count_char LF field = 0.

(** A decimal digit. *)
Definition is_digit (c : ascii) : bool :=
  (48 <=? nat_of_ascii c) && (nat_of_ascii c <=? 57).

(** A letter of the alphabet, capital or small. *)
Definition is_letter (c : ascii) : bool :=
  (65 <=? nat_of_ascii c) && (nat_of_ascii c <=? 90)
  || (97 <=? nat_of_ascii c) && (nat_of_ascii c <=? 122).

(** The number that the digits of [s] write after digits of value [acc];
    [None] when [s] has a character that is no decimal digit. *)
Fixpoint digits_value (acc : nat) (s : string) : option nat :=
  match s with
  | EmptyString => Some acc
  | String c s' =>
      if is_digit c then digits_value (10 * acc + (nat_of_ascii c - 48)) s'
      else None
  end.

(** [digits] is the decimal numeral of [n]: decimal digits, at least one,
    that write [n], without a zero in front unless the numeral is ["0"]. *)
Definition numeral (digits : string) (n : nat) : Prop :=
  digits ≠ EmptyString
  ∧ digits_value 0 digits = Some n
  ∧ (digits = "0" ∨ ∀ rest, digits ≠ String "0" rest).

(** * Theorems *)

Lemma strict_eq_spec (v : option string) (s : string) :
  strict_eq v s = true ↔ v = Some s.
Proof.
  destruct v as [s'|]; simpl.
  - rewrite String.eqb_eq. split; [intros ->; done | intros [= ->]; done].
  - split; done.
Qed.

(** ** The numeral of a counter *)

Ltac numeral_value IH :=
  cbn [NilEmpty.string_of_uint Nat.of_uint_acc digits_value];
  match goal with
  | |- context [is_digit ?c] => change (is_digit c) with true
  end;
  cbv iota; rewrite <- IH; f_equal;
  rewrite Nat.tail_mul_spec; simpl (nat_of_ascii _ - 48); lia.

Lemma digits_value_uint (d : Decimal.uint) (a : nat) :
  digits_value a (NilEmpty.string_of_uint d) = Some (Nat.of_uint_acc d a).
Proof.
  revert a.
  induction d as [|d IH|d IH|d IH|d IH|d IH|d IH|d IH|d IH|d IH|d IH]; intros a;
    [done|numeral_value IH..].
Qed.

Lemma to_uint_unorm (n : nat) : Nat.to_uint n = Decimal.unorm (Nat.to_uint n).
Proof.
  rewrite <- (DecimalNat.Unsigned.of_to n) at 1.
  apply DecimalNat.Unsigned.to_of.
Qed.

(** What a template literal prints for a counter is its decimal numeral. *)
Lemma numeral_NumberToString (n : nat) : numeral (NumberToString n) n.
Proof.
  unfold NumberToString, NilZero.string_of_uint.
  pose proof (to_uint_unorm n) as Hnorm.
  pose proof (DecimalFacts.unorm_nonnil (Nat.to_uint n)) as Hnil.
  rewrite <- Hnorm in Hnil.
  assert (match Nat.to_uint n with
          | Decimal.Nil => "0"
          | _ => NilEmpty.string_of_uint (Nat.to_uint n)
          end = NilEmpty.string_of_uint (Nat.to_uint n)) as ->
    by (by destruct (Nat.to_uint n)).
  split; [by destruct (Nat.to_uint n)|]. split.
  - rewrite digits_value_uint.
    change (Nat.of_uint_acc (Nat.to_uint n) 0) with (Nat.of_uint (Nat.to_uint n)).
    by rewrite DecimalNat.Unsigned.of_to.
  - rewrite Hnorm. unfold Decimal.unorm.
    pose proof (DecimalFacts.nzhead_nonzero (Nat.to_uint n)) as Hhead.
    destruct (Decimal.nzhead (Nat.to_uint n)) as [|d|d|d|d|d|d|d|d|d|d];
      [by left|by destruct (Hhead d)|right; intros rest; discriminate..].
Qed.

Example numeral_examples :
  numeral "0" 0 ∧ numeral "12" 12 ∧ numeral "380" 380
  ∧ ¬ numeral "0" 2 ∧ ¬ numeral "02" 2 ∧ ¬ numeral "2 " 2 ∧ ¬ numeral "" 0.
Proof.
  unfold numeral. repeat split; try done; try (by left);
    try (right; intros rest; discriminate).
  - intros (_ & Hvalue & _). discriminate Hvalue.
  - intros (_ & _ & [Hzero|Hlead]); [discriminate Hzero|]. by apply (Hlead "2").
  - intros (_ & Hvalue & _). discriminate Hvalue.
  - by intros (Hempty & _).
Qed.

Section WinsAnalysisFacts.
Context {Date : Type}.
Implicit Types (self : WinsAnalysis.t) (m : MatchData Date)
  (ms : list (MatchData Date)).

Lemma isWin_spec self m :
  WinsAnalysis.isWin self m = true ↔ WinFor (WinsAnalysis.team self) m.
Proof.
  unfold WinsAnalysis.isWin, WinFor.
  rewrite orb_true_iff, !andb_true_iff, !strict_eq_spec. done.
Qed.

(** The loop adds to its accumulator: starting from [n] gives [n] more
    than starting from 0. *)
Lemma loop_acc self ms (n : nat) :
  fold_left (WinsAnalysis.step self) ms n
  = n + fold_left (WinsAnalysis.step self) ms 0.
Proof.
  revert n. induction ms as [|m ms IH]; intros n; simpl.
  - lia.
  - rewrite (IH (WinsAnalysis.step self n m)), (IH (WinsAnalysis.step self 0 m)).
    unfold WinsAnalysis.step. destruct (WinsAnalysis.isWin self m); lia.
Qed.

Lemma teamWins_nil self : WinsAnalysis.teamWins self (@nil (MatchData Date)) = 0.
Proof. reflexivity. Qed.

Lemma teamWins_cons self m ms :
  WinsAnalysis.teamWins self (m :: ms)
  = (if WinsAnalysis.isWin self m then 1 else 0) + WinsAnalysis.teamWins self ms.
Proof.
  unfold WinsAnalysis.teamWins. simpl. rewrite loop_acc.
  unfold WinsAnalysis.step. destruct (WinsAnalysis.isWin self m); lia.
Qed.

Lemma teamWins_filter self ms :
  WinsAnalysis.teamWins self ms
  = length (filter (WinFor (WinsAnalysis.team self)) ms).
Proof.
  induction ms as [|m ms IH].
  - reflexivity.
  - rewrite teamWins_cons, IH, filter_cons.
    destruct (decide (WinFor (WinsAnalysis.team self) m)) as [Hw|Hw];
      destruct (WinsAnalysis.isWin self m) eqn:E; simpl; try lia.
    + apply isWin_spec in Hw. congruence.
    + apply isWin_spec in E. done.
Qed.
End WinsAnalysisFacts.

Section WinsAnalysisClaims.
Context {Date : Type}.
Implicit Types (self : WinsAnalysis.t) (m : MatchData Date)
  (ms xs ys : list (MatchData Date)).

Lemma wins_of_concat self xs ys :
  WinsAnalysis.teamWins self (xs ++ ys)
  = WinsAnalysis.teamWins self xs + WinsAnalysis.teamWins self ys.
Proof.
  unfold WinsAnalysis.teamWins.
  rewrite fold_left_app.
  apply loop_acc.
Qed.

(** C9: the count over a concatenation [xs ++ ys] is the count over [xs]
    plus the count over [ys]. *)
Theorem teamWins_app self xs ys :
  WinsAnalysis.teamWins self (xs ++ ys)
  = WinsAnalysis.teamWins self xs + WinsAnalysis.teamWins self ys.
Proof. apply wins_of_concat. Qed.

(** C1: the count that [run] computes, and prints in the string it returns,
    is the number of records of the list for which the team is the home
    side of a home win or the away side of an away win, the team being
    compared by equality of strings; no other record (a draw, a defeat, a
    match of other teams, a name that differs in case or spacing) adds to
    it. *)
Theorem teamWins_counts_wins self ms :
  WinsAnalysis.teamWins self ms
  = length (filter (λ m,
      (m1 m = Some (WinsAnalysis.team self) ∧ m5 m = Some MatchResult.HomeWin)
      ∨ (m2 m = Some (WinsAnalysis.team self) ∧ m5 m = Some MatchResult.AwayWin)) ms)
  ∧ WinsAnalysis.run self ms
    = WinsAnalysis.team self +:+ " won "
      +:+ NumberToString (WinsAnalysis.teamWins self ms) +:+ " games".
Proof. split; [apply teamWins_filter | reflexivity]. Qed.

(** C2: the string [run] returns is the team, [" won "], the decimal numeral
    of the count and [" games"]: the numeral is made of decimal digits that
    write the number of winning records, with no zero in front; on the
    empty list the string is ["<team> won 0 games"]. *)
Theorem run_summary_format self ms :
  (∃ digits,
      numeral digits (length (filter (WinFor (WinsAnalysis.team self)) ms))
      ∧ WinsAnalysis.run self ms
        = WinsAnalysis.team self +:+ " won " +:+ digits +:+ " games")
  ∧ WinsAnalysis.run self (@nil (MatchData Date))
    = WinsAnalysis.team self +:+ " won 0 games".
Proof.
  split; [|reflexivity].
  exists (NumberToString (WinsAnalysis.teamWins self ms)). split.
  - rewrite teamWins_filter. apply numeral_NumberToString.
  - reflexivity.
Qed.

Lemma teamWins_Permutation self ms ms' :
  ms ≡ₚ ms' → WinsAnalysis.teamWins self ms = WinsAnalysis.teamWins self ms'.
Proof.
  induction 1 as [|m xs ys _ IH|m m' xs|xs ys zs _ IH1 _ IH2].
  - reflexivity.
  - by rewrite !teamWins_cons, IH.
  - rewrite !teamWins_cons. lia.
  - by rewrite IH1.
Qed.

(** C5: on a permutation of the list, [run] returns the same string. *)
Theorem run_Permutation self ms ms' :
  ms ≡ₚ ms' → WinsAnalysis.run self ms = WinsAnalysis.run self ms'.
Proof.
  intros Hperm. unfold WinsAnalysis.run.
  by rewrite (teamWins_Permutation self ms ms' Hperm).
Qed.

Lemma isWin_stranger self m :
  m1 m ≠ Some (WinsAnalysis.team self) →
  m2 m ≠ Some (WinsAnalysis.team self) →
  WinsAnalysis.isWin self m = false.
Proof.
  intros Hhome Haway.
  destruct (WinsAnalysis.isWin self m) eqn:E; [|done].
  apply isWin_spec in E as [[? _]|[? _]]; done.
Qed.

(** C6: a record in which the team is neither the home team nor the away
    team does not count: appending it to a list changes neither the count
    nor the string that [run] returns. *)
Theorem teamWins_stranger self ms m :
  m1 m ≠ Some (WinsAnalysis.team self) →
  m2 m ≠ Some (WinsAnalysis.team self) →
  WinsAnalysis.teamWins self (ms ++ [m]) = WinsAnalysis.teamWins self ms
  ∧ WinsAnalysis.run self (ms ++ [m]) = WinsAnalysis.run self ms.
Proof.
  intros Hhome Haway.
  assert (WinsAnalysis.teamWins self (ms ++ [m]) = WinsAnalysis.teamWins self ms) as Hcount.
  { rewrite wins_of_concat, teamWins_cons, isWin_stranger by done.
    rewrite teamWins_nil. lia. }
  split; [done|].
  unfold WinsAnalysis.run. by rewrite Hcount.
Qed.
End WinsAnalysisClaims.

(** The first two scenarios of the specification, and the comparison of team
    names: a different case or a trailing space is a different team. *)
Example scenario_1 :
  WinsAnalysis.run (WinsAnalysis.new "A") [Sample.A_beats_B; Sample.B_draws_A]
  = "A won 1 games".
Proof. reflexivity. Qed.

Example scenario_2 :
  WinsAnalysis.run (WinsAnalysis.new "A") (@nil (MatchData utils.CalendarDate))
  = "A won 0 games".
Proof. reflexivity. Qed.

Example team_names_are_compared_exactly :
  WinsAnalysis.teamWins (WinsAnalysis.new "a") [Sample.A_beats_B] = 0
  ∧ WinsAnalysis.teamWins (WinsAnalysis.new "A ") [Sample.A_beats_B] = 0
  ∧ WinsAnalysis.teamWins (WinsAnalysis.new "A") [Sample.A_beats_B] = 1.
Proof. repeat split; reflexivity. Qed.

Lemma run_Permutation_witness :
  [Sample.A_beats_B; Sample.B_draws_A] ≡ₚ [Sample.B_draws_A; Sample.A_beats_B]
  ∧ WinsAnalysis.run (WinsAnalysis.new "A") [Sample.A_beats_B; Sample.B_draws_A]
    = WinsAnalysis.run (WinsAnalysis.new "A") [Sample.B_draws_A; Sample.A_beats_B].
Proof.
  split.
  - apply perm_swap.
  - apply (run_Permutation (WinsAnalysis.new "A")
             [Sample.A_beats_B; Sample.B_draws_A]
             [Sample.B_draws_A; Sample.A_beats_B]).
    apply perm_swap.
Defined.

Lemma teamWins_stranger_witness :
  m1 Sample.C_beats_D ≠ Some "A"
  ∧ m2 Sample.C_beats_D ≠ Some "A"
  ∧ WinsAnalysis.teamWins (WinsAnalysis.new "A") ([Sample.A_beats_B] ++ [Sample.C_beats_D])
    = WinsAnalysis.teamWins (WinsAnalysis.new "A") [Sample.A_beats_B]
  ∧ WinsAnalysis.run (WinsAnalysis.new "A") ([Sample.A_beats_B] ++ [Sample.C_beats_D])
    = WinsAnalysis.run (WinsAnalysis.new "A") [Sample.A_beats_B].
Proof.
  split; [simpl; discriminate|].
  split; [simpl; discriminate|].
  apply (teamWins_stranger (WinsAnalysis.new "A") [Sample.A_beats_B] Sample.C_beats_D).
  - simpl. discriminate.
  - simpl. discriminate.
Defined.

(** ** The file output target *)

Section HTMLReportClaims.
Context {fsys : FileSystem}.
Implicit Types (self : HTMLReport.t) (report : string)
  (files : gmap string string).

Lemma print_writes self report files :
  HTMLReport.print self report files
  = fs.writeFileSync "./report.html" (HTMLReport.html report) files.
Proof. reflexivity. Qed.

Lemma print_Normal self report files files' :
  HTMLReport.print self report files = (Normal (), files') →
  files' !! "./report.html" = Some (HTMLReport.html report).
Proof. apply write_file_Normal. Qed.

Lemma print_frame self report files (path : string) :
  ¬ same_file "./report.html" path →
  (HTMLReport.print self report files).2 !! path = files !! path.
Proof. apply write_file_frame. Qed.

Lemma html_template report :
  HTMLReport.html report
  = (String LF "        <div>" +:+ String LF "            ")
    +:+ "<h1>Analysis Output</h1>"
    +:+ String LF "            "
    +:+ "<div>" +:+ report +:+ "</div>"
    +:+ (String LF "        </div>" +:+ String LF "        ").
Proof. reflexivity. Qed.

(** C7: [print] hands to the write, for the destination, the report wrapped
    in a fixed template, one heading and one content block, a text that has
    the heading and the report, verbatim, as substrings; when the write
    returns, that text is the content of the file, all of it; and a second
    [print] replaces the content: after two prints the file holds the
    wrapping of the second report and nothing of the first.  (A write that
    throws is the failure of [print]; the claim is about the write that is
    made.) *)
Theorem print_wraps_and_replaces self :
  (∃ before between after, ∀ report,
      HTMLReport.html report
      = before +:+ "<h1>Analysis Output</h1>" +:+ between
        +:+ "<div>" +:+ report +:+ "</div>" +:+ after)
  ∧ (∀ report,
      Spec.substring report (HTMLReport.html report)
      ∧ Spec.substring "<h1>Analysis Output</h1>" (HTMLReport.html report))
  ∧ (∀ report files,
      HTMLReport.print self report files
      = fs.writeFileSync "./report.html" (HTMLReport.html report) files)
  ∧ (∀ report files files',
      HTMLReport.print self report files = (Normal (), files') →
      files' !! "./report.html" = Some (HTMLReport.html report))
  ∧ (∀ first second files files',
      (HTMLReport.print self first ≫= λ _, HTMLReport.print self second) files
      = (Normal (), files') →
      files' !! "./report.html" = Some (HTMLReport.html second)).
Proof.
  split; [|split; [|split; [|split]]].
  - eexists _, _, _. intros report. apply html_template.
  - intros report. split.
    + eexists (String LF "        <div>" +:+ String LF "            "
               +:+ "<h1>Analysis Output</h1>" +:+ String LF "            " +:+ "<div>"), _.
      reflexivity.
    + eexists (String LF "        <div>" +:+ String LF "            "), _.
      reflexivity.
  - reflexivity.
  - apply print_Normal.
  - intros first second files files'. unfold mbind, IO_bind.
    destruct (HTMLReport.print self first files) as [[[]|e] files1]; [|done].
    apply print_Normal.
Qed.

(** C10: whatever the report, the one thing [print] does to the files is
    the write to ["./report.html"], a path fixed in the method; every path
    that names another file keeps its content, whether the write returns
    or throws. *)
Theorem print_only_report_html self report files (path : string) :
  ¬ same_file "./report.html" path →
  HTMLReport.print self report files
  = fs.writeFileSync "./report.html" (HTMLReport.html report) files
  ∧ (HTMLReport.print self report files).2 !! path = files !! path.
Proof.
  intros Hother. split; [reflexivity|]. by apply print_frame.
Qed.
End HTMLReportClaims.

Example print_X_won_3_games :
  HTMLReport.print (fsys := Sample.disk) HTMLReport.new "X won 3 games" ∅
  = (Normal (),
     <["./report.html" :=
         String LF "        <div>"
         +:+ String LF "            <h1>Analysis Output</h1>"
         +:+ String LF "            <div>X won 3 games</div>"
         +:+ String LF "        </div>"
         +:+ String LF "        "]> ∅).
Proof. reflexivity. Qed.

(** When the write throws, so does [print]. *)
Example print_locked :
  HTMLReport.print (fsys := Sample.locked_report) HTMLReport.new "X won 3 games" ∅
  = (Throw (IOError "./report.html"), ∅).
Proof. reflexivity. Qed.

Lemma print_wraps_and_replaces_witness :
  (<["./report.html" := HTMLReport.html "X won 3 games"]> ∅ : gmap string string)
    !! "./report.html"
  = Some (HTMLReport.html "X won 3 games")
  ∧ (<["./report.html" := HTMLReport.html "Y won 5 games"]>
       (<["./report.html" := HTMLReport.html "X won 3 games"]> ∅) : gmap string string)
      !! "./report.html"
    = Some (HTMLReport.html "Y won 5 games").
Proof.
  pose proof (print_wraps_and_replaces (fsys := Sample.disk) HTMLReport.new)
    as (_ & _ & _ & Hone & Htwo).
  split.
  - apply (Hone "X won 3 games" ∅). reflexivity.
  - apply (Htwo "X won 3 games" "Y won 5 games" ∅). reflexivity.
Defined.

Lemma print_only_report_html_witness :
  ¬ same_file (FileSystem := Sample.disk) "./report.html" Sample.football_csv
  ∧ HTMLReport.print (fsys := Sample.disk) HTMLReport.new "A won 1 games"
      {[Sample.football_csv := "2024-01-01,A,B,2,1,H,Cup"]}
    = fs.writeFileSync (fsys := Sample.disk) "./report.html"
        (HTMLReport.html "A won 1 games")
        {[Sample.football_csv := "2024-01-01,A,B,2,1,H,Cup"]}
  ∧ (HTMLReport.print (fsys := Sample.disk) HTMLReport.new "A won 1 games"
       {[Sample.football_csv := "2024-01-01,A,B,2,1,H,Cup"]}).2 !! Sample.football_csv
    = ({[Sample.football_csv := "2024-01-01,A,B,2,1,H,Cup"]} : gmap string string)
        !! Sample.football_csv.
Proof.
  split; [discriminate|].
  apply (print_only_report_html (fsys := Sample.disk) HTMLReport.new "A won 1 games"
           {[Sample.football_csv := "2024-01-01,A,B,2,1,H,Cup"]} Sample.football_csv).
  discriminate.
Defined.

(** ** The orchestrator *)

Section SummaryClaims.
Context {Date : Type} {fsys : FileSystem}.

(** C8: [buildAndPrintReport] calls [run] of the analyzer on the list and
    then [print] of the output target on the string [run] returned, as the
    specification words it; and [winsAnalysisWithHtmlReport] gives the
    object that the constructor gives for a [WinsAnalysis] of the team and
    an [HTMLReport], with the same [buildAndPrintReport]: the one write of
    the wrapped string of the analysis to ["./report.html"]. *)
Theorem buildAndPrintReport_refines :
  (∀ (analyzer : Analyzer.t Date) target matches files,
      Summary.buildAndPrintReport (Summary.new analyzer target) matches files
      = Spec.build_and_print analyzer target matches files)
  ∧ (∀ teamName (matches : list (MatchData Date)) files,
      Summary.buildAndPrintReport (Summary.winsAnalysisWithHtmlReport teamName)
        matches files
      = Summary.buildAndPrintReport
          (Summary.new (WinsAnalysis.implements (WinsAnalysis.new teamName))
                       (HTMLReport.implements HTMLReport.new))
          matches files)
  ∧ (∀ teamName (matches : list (MatchData Date)) files,
      Summary.buildAndPrintReport (Summary.winsAnalysisWithHtmlReport teamName)
        matches files
      = fs.writeFileSync "./report.html"
          (HTMLReport.html (WinsAnalysis.run (WinsAnalysis.new teamName) matches))
          files).
Proof.
  split; [|split].
  - intros analyzer target matches files.
    unfold Summary.buildAndPrintReport, Spec.build_and_print, mbind, IO_bind.
    simpl. by destruct (Analyzer.run analyzer matches files) as [[report|e] files'].
  - reflexivity.
  - reflexivity.
Qed.
End SummaryClaims.

(** The order of the two calls shows when the analyzer reads the file the
    target writes: it reads the content from before the [print]. *)
Example run_comes_before_print :
  let reads_report : Analyzer.t utils.CalendarDate :=
    {| Analyzer.run := λ _, fs.readFileSync "./report.html" |} in
  Summary.buildAndPrintReport
    (Summary.new reads_report (HTMLReport.implements (fsys := Sample.disk) HTMLReport.new))
    [] {["./report.html" := "old"]}
  = (Normal (), {["./report.html" := HTMLReport.html "old"]}).
Proof.
  simpl. unfold Summary.buildAndPrintReport, mbind, IO_bind; simpl.
  unfold fs.readFileSync. rewrite lookup_singleton_eq.
  unfold HTMLReport.print, fs.writeFileSync. simpl. unfold guarded_write.
  by rewrite insert_singleton_eq.
Qed.

(** When the write throws, the orchestrator throws the same exception. *)
Example buildAndPrintReport_locked :
  Summary.buildAndPrintReport
    (Summary.winsAnalysisWithHtmlReport (fsys := Sample.locked_report) "A")
    [Sample.A_beats_B; Sample.B_draws_A] ∅
  = (Throw (IOError "./report.html"), ∅).
Proof. reflexivity. Qed.

(** ** Splitting a text into rows *)

Lemma split_cons (sep : ascii) (s : string) :
  ∃ piece pieces, split sep s = piece :: pieces.
Proof.
  destruct s as [|c s]; simpl; [by eauto|].
  destruct (Ascii.eqb c sep); [by eauto|].
  destruct (split sep s); eauto.
Qed.

(** A text that ends with the separator has an empty last piece. *)
Lemma split_trailing (sep : ascii) (s : string) :
  split sep (s +:+ String sep EmptyString) = split sep s ++ [EmptyString].
Proof.
  induction s as [|c s IH]; simpl.
  - by rewrite Ascii.eqb_refl.
  - destruct (Ascii.eqb c sep); [by rewrite IH|].
    rewrite IH. by destruct (split_cons sep s) as (piece & pieces & ->).
Qed.

Lemma rows_trailing_LF (text : string) :
  CsvFileReader.rows (text +:+ String LF EmptyString)
  = CsvFileReader.rows text ++ [[EmptyString]].
Proof.
  unfold CsvFileReader.rows. by rewrite split_trailing, map_app.
Qed.

(** ** Mapping a function that may throw over an array *)

Section MapM.
Context {A B : Type} (f : A → Completion B).

Lemma mapM_cons (x : A) (l : list A) :
  mapM f (x :: l)
  = match f x with
    | Normal y =>
        match mapM f l with
        | Normal ys => Normal (y :: ys)
        | Throw e => Throw e
        end
    | Throw e => Throw e
    end.
Proof.
  simpl. unfold mbind, Completion_bind.
  destruct (f x); [|done]. by destruct (mapM f l).
Qed.

(** All calls return: the results, in order. *)
Lemma mapM_Normal (l : list A) (ys : list B) :
  mapM f l = Normal ys ↔ Forall2 (λ x y, f x = Normal y) l ys.
Proof.
  revert ys. induction l as [|x l IH]; intros ys.
  - split.
    + intros [= <-]. constructor.
    + intros Hall. by inversion Hall.
  - rewrite mapM_cons. split.
    + destruct (f x) as [y|e] eqn:Hx; [|done].
      destruct (mapM f l) as [ys'|e] eqn:Hl; [|done].
      intros [= <-]. constructor; [done|]. by apply IH.
    + intros Hall. inversion Hall as [|? y ? ys' Hx Hl]; subst.
      apply IH in Hl. by rewrite Hx, Hl.
Qed.

(** One call throws: the whole map throws. *)
Lemma mapM_Throw (l : list A) (x : A) (e : Error) :
  x ∈ l → f x = Throw e → ∃ e', mapM f l = Throw e'.
Proof.
  intros Hin Hx. induction l as [|x' l IH]; [by apply elem_of_nil in Hin|].
  rewrite mapM_cons. apply elem_of_cons in Hin as [->|Hin].
  - rewrite Hx. eauto.
  - destruct (f x') as [y|e1]; [|by eauto].
    destruct (IH Hin) as [e' ->]. eauto.
Qed.

(** The exception of a map is that of the first call that throws. *)
Lemma mapM_first_Throw (before after : list A) (x : A) (e : Error) :
  Forall (λ x', ∃ y, f x' = Normal y) before →
  f x = Throw e →
  mapM f (before ++ x :: after) = Throw e.
Proof.
  intros Hbefore Hx. induction Hbefore as [|x' before [y Hy] _ IH].
  - rewrite app_nil_l, mapM_cons. by rewrite Hx.
  - rewrite <- app_comm_cons, mapM_cons. by rewrite Hy, IH.
Qed.

Lemma mapM_Throw_first (l : list A) (e : Error) :
  mapM f l = Throw e →
  ∃ before x after,
    l = before ++ x :: after
    ∧ Forall (λ x', ∃ y, f x' = Normal y) before
    ∧ f x = Throw e.
Proof.
  induction l as [|x l IH]; [done|]. rewrite mapM_cons.
  destruct (f x) as [y|e'] eqn:Hx.
  - destruct (mapM f l) as [ys|e'] eqn:Hl; [done|]. intros [= ->].
    destruct (IH eq_refl) as (before & x' & after & -> & Hbefore & Hx').
    exists (x :: before), x', after. split; [done|]. split; [|done].
    constructor; [by exists y|done].
  - intros [= ->]. exists [], x, l. by repeat split.
Qed.
End MapM.

(** ** The generic reader *)

Section CsvFileReaderClaims.
Context {T : Type} (mapRow : list string → Completion T).
Implicit Types (self : CsvFileReader.t T) (files : gmap string string).

Lemma read_unfold self files text :
  files !! CsvFileReader.filename self = Some text →
  CsvFileReader.read mapRow self files
  = match mapM mapRow (CsvFileReader.rows text) with
    | Normal records =>
        (Normal (CsvFileReader.mk (CsvFileReader.filename self) records), files)
    | Throw e => (Throw e, files)
    end.
Proof.
  intros Hfile.
  unfold CsvFileReader.read, mbind, IO_bind, fs.readFileSync. rewrite Hfile.
  unfold lift, Completion_bind.
  by destruct (mapM mapRow (CsvFileReader.rows text)).
Qed.

(** C4, as the code has it: [read] filters nothing.  The row decoder is
    applied to every line of the text, the empty ones too: a text that
    ends with a line feed has an empty last line, whose row [[""]] is
    decoded like the others.  The load returns exactly one record per row,
    each the decoding of its row, when every row decodes; and it throws,
    with the exception of the first row whose decoding throws, exactly when
    there is such a row. *)
Theorem read_decodes_every_line self files text :
  files !! CsvFileReader.filename self = Some text →
  CsvFileReader.rows (text +:+ String LF EmptyString)
    = CsvFileReader.rows text ++ [[EmptyString]]
  ∧ (∀ records,
      CsvFileReader.read mapRow self files
        = (Normal (CsvFileReader.mk (CsvFileReader.filename self) records), files)
      ↔ Forall2 (λ row record, mapRow row = Normal record)
                (CsvFileReader.rows text) records)
  ∧ (∀ e,
      CsvFileReader.read mapRow self files = (Throw e, files)
      ↔ ∃ before row after,
          CsvFileReader.rows text = before ++ row :: after
          ∧ Forall (λ row', ∃ record, mapRow row' = Normal record) before
          ∧ mapRow row = Throw e).
Proof.
  intros Hfile. split; [apply rows_trailing_LF|]. split.
  - intros records. rewrite (read_unfold self files text Hfile).
    rewrite <- mapM_Normal.
    destruct (mapM mapRow (CsvFileReader.rows text)) as [records'|e].
    + split; [by intros [= ->]|by intros [= ->]].
    + split; done.
  - intros e. rewrite (read_unfold self files text Hfile). split.
    + destruct (mapM mapRow (CsvFileReader.rows text)) as [records|e'] eqn:Hrows;
        [done|].
      intros [= ->]. by apply mapM_Throw_first.
    + intros (before & row & after & -> & Hbefore & Hrow).
      by rewrite (mapM_first_Throw mapRow before after row e Hbefore Hrow).
Qed.
End CsvFileReaderClaims.

(** ** The match reader *)

(** A field that begins with a letter has no number in front. *)
Lemma parseInt_letter (c : ascii) (rest : string) :
  is_letter c = true → parseInt (Some (String c rest)) = NaN.
Proof.
  destruct c as [[] [] [] [] [] [] [] []]; intros Hc; vm_compute in Hc;
    try discriminate Hc; reflexivity.
Qed.

Section MatchReaderClaims.
Context {Date : Type} (dateStringToDate : option string → Completion Date).
Implicit Types (row : list string) (files : gmap string string)
  (self : CsvFileReader.t (MatchData Date)).

Lemma mapRow_Normal row (date : Date) :
  dateStringToDate (row !! 0) = Normal date →
  MatchReader.mapRow dateStringToDate row
  = Normal (mkMatchData date (row !! 1) (row !! 2)
              (parseInt (row !! 3)) (parseInt (row !! 4)) (row !! 5) (row !! 6)).
Proof. intros Hdate. unfold MatchReader.mapRow. by rewrite Hdate. Qed.

Lemma mapRow_Throw row (e : Error) :
  MatchReader.mapRow dateStringToDate row = Throw e
  ↔ dateStringToDate (row !! 0) = Throw e.
Proof.
  unfold MatchReader.mapRow, mbind, Completion_bind, mret, Completion_ret.
  destruct (dateStringToDate (row !! 0)) as [date|e']; split; congruence.
Qed.

(** C3, as the code has it: decoding a row throws exactly when the date
    helper throws on the first field, with the exception of the helper.
    The goals fields are what [parseInt] gives for them, which is [NaN],
    and no failure, for a field that is undefined, empty or begins with a
    letter; and the result field is kept as it is, whatever the token.
    When the decoding of a row of a load throws, the whole load throws: it
    returns no records and leaves the files as they were. *)
Theorem decode_fails_only_on_date :
  (∀ row e,
      MatchReader.mapRow dateStringToDate row = Throw e
      ↔ dateStringToDate (row !! 0) = Throw e)
  ∧ (∀ row record,
      MatchReader.mapRow dateStringToDate row = Normal record →
      m3 record = parseInt (row !! 3)
      ∧ m4 record = parseInt (row !! 4)
      ∧ m5 record = row !! 5)
  ∧ (parseInt None = NaN
     ∧ parseInt (Some EmptyString) = NaN
     ∧ ∀ (c : ascii) (rest : string),
         is_letter c = true → parseInt (Some (String c rest)) = NaN)
  ∧ (∀ self files text row e,
      files !! CsvFileReader.filename self = Some text →
      row ∈ CsvFileReader.rows text →
      MatchReader.mapRow dateStringToDate row = Throw e →
      ∃ e', MatchReader.read dateStringToDate self files = (Throw e', files)).
Proof.
  split; [|split; [|split]].
  - apply mapRow_Throw.
  - intros row record. unfold MatchReader.mapRow.
    destruct (dateStringToDate (row !! 0)) as [date|e]; simpl; [|done].
    by intros [= <-].
  - split; [reflexivity|]. split; [reflexivity|]. apply parseInt_letter.
  - intros self files text row e Hfile Hrow Hthrow.
    unfold MatchReader.read. rewrite (read_unfold _ self files text Hfile).
    destruct (mapM_Throw (MatchReader.mapRow dateStringToDate) _ row e Hrow Hthrow)
      as [e' ->].
    eauto.
Qed.
End MatchReaderClaims.

(** [parseInt] on the texts of a goals field. *)
Example parseInt_examples :
  parseInt (Some "2") = Num 2
  ∧ parseInt (Some " 12px") = Num 12
  ∧ parseInt (Some "-0x1f") = Num (-31)
  ∧ parseInt (Some "two") = NaN
  ∧ parseInt (Some "") = NaN
  ∧ parseInt None = NaN.
Proof. repeat split; reflexivity. Qed.

(** The third scenario of the specification, a row with the result token
    ["X"], and a row whose home goals are not a number: the load returns a
    record for each. *)
Lemma load_keeps_unknown_token_and_NaN :
  MatchReader.read utils.dateStringToDate (CsvFileReader.new Sample.football_csv)
    {[Sample.football_csv := "2024-01-01,A,B,2,1,X,Cup"]}
  = (Normal (CsvFileReader.mk Sample.football_csv
       [mkMatchData (utils.mkDate 2024 1 1) (Some "A") (Some "B") (Num 2) (Num 1)
          (Some "X") (Some "Cup")]),
     {[Sample.football_csv := "2024-01-01,A,B,2,1,X,Cup"]})
  ∧ MatchReader.mapRow utils.dateStringToDate ["2024-01-02"; "B"; "A"; "two"; "0"; "D"; "Cup"]
    = Normal (mkMatchData (utils.mkDate 2024 1 2) (Some "B") (Some "A") NaN (Num 0)
                (Some "D") (Some "Cup")).
Proof.
  split; [|reflexivity].
  unfold MatchReader.read.
  rewrite (read_unfold _ _ _ "2024-01-01,A,B,2,1,X,Cup") by apply lookup_singleton_eq.
  reflexivity.
Qed.

(** A load of two lines whose second date is no calendar date. *)
Lemma decode_fails_only_on_date_witness :
  ∃ e', MatchReader.read utils.dateStringToDate (CsvFileReader.new Sample.football_csv)
          {[Sample.football_csv :=
              Sample.unlines ["2024-01-01,A,B,2,1,H,Cup"; "2024-02-30,B,A,0,0,D,Cup"]]}
        = (Throw e',
           {[Sample.football_csv :=
               Sample.unlines ["2024-01-01,A,B,2,1,H,Cup"; "2024-02-30,B,A,0,0,D,Cup"]]}).
Proof.
  apply (proj2 (proj2 (proj2 (decode_fails_only_on_date utils.dateStringToDate)))
           (CsvFileReader.new Sample.football_csv) _
           (Sample.unlines ["2024-01-01,A,B,2,1,H,Cup"; "2024-02-30,B,A,0,0,D,Cup"])
           ["2024-02-30"; "B"; "A"; "0"; "0"; "D"; "Cup"]
           (DecodeError "2024-02-30")).
  - apply lookup_singleton_eq.
  - vm_compute. do 2 constructor.
  - reflexivity.
Defined.

(** A text with a final line feed, read with a decoder that returns the row
    it is given, and with the match reader: the empty last row reaches the
    decoder, which returns a record for it, or throws on its empty date. *)
Lemma read_decodes_trailing_empty_row :
  CsvFileReader.read (λ row, Normal row) (CsvFileReader.new Sample.football_csv)
    {[Sample.football_csv := Sample.unlines ["2024-01-01,A,B,2,1,H,Cup"; ""]]}
  = (Normal (CsvFileReader.mk Sample.football_csv
       [["2024-01-01"; "A"; "B"; "2"; "1"; "H"; "Cup"]; [""]]),
     {[Sample.football_csv := Sample.unlines ["2024-01-01,A,B,2,1,H,Cup"; ""]]})
  ∧ MatchReader.read utils.dateStringToDate (CsvFileReader.new Sample.football_csv)
      {[Sample.football_csv := Sample.unlines ["2024-01-01,A,B,2,1,H,Cup"; ""]]}
    = (Throw (DecodeError ""),
       {[Sample.football_csv := Sample.unlines ["2024-01-01,A,B,2,1,H,Cup"; ""]]}).
Proof.
  split.
  - rewrite (read_unfold _ _ _ (Sample.unlines ["2024-01-01,A,B,2,1,H,Cup"; ""]))
      by apply lookup_singleton_eq.
    reflexivity.
  - unfold MatchReader.read.
    rewrite (read_unfold _ _ _ (Sample.unlines ["2024-01-01,A,B,2,1,H,Cup"; ""]))
      by apply lookup_singleton_eq.
    reflexivity.
Qed.

Lemma read_decodes_every_line_witness :
  ({[Sample.football_csv := "2024-01-01,A,B,2,1,H,Cup"]} : gmap string string)
    !! CsvFileReader.filename (CsvFileReader.new (T:=list string) Sample.football_csv)
  = Some "2024-01-01,A,B,2,1,H,Cup"
  ∧ CsvFileReader.rows ("2024-01-01,A,B,2,1,H,Cup" +:+ String LF EmptyString)
    = CsvFileReader.rows "2024-01-01,A,B,2,1,H,Cup" ++ [[EmptyString]]
  ∧ (∀ records,
      CsvFileReader.read (λ row, Normal row) (CsvFileReader.new Sample.football_csv)
        {[Sample.football_csv := "2024-01-01,A,B,2,1,H,Cup"]}
      = (Normal (CsvFileReader.mk
                   (CsvFileReader.filename (CsvFileReader.new (T:=list string) Sample.football_csv))
                   records),
         {[Sample.football_csv := "2024-01-01,A,B,2,1,H,Cup"]})
      ↔ Forall2 (λ row record, Normal row = Normal record)
          (CsvFileReader.rows "2024-01-01,A,B,2,1,H,Cup") records)
  ∧ (∀ e,
      CsvFileReader.read (λ row, Normal row) (CsvFileReader.new Sample.football_csv)
        {[Sample.football_csv := "2024-01-01,A,B,2,1,H,Cup"]}
      = (Throw e, {[Sample.football_csv := "2024-01-01,A,B,2,1,H,Cup"]})
      ↔ ∃ before row after,
          CsvFileReader.rows "2024-01-01,A,B,2,1,H,Cup" = before ++ row :: after
          ∧ Forall (λ row', ∃ record : list string, Normal row' = Normal record) before
          ∧ Normal row = Throw e).
Proof.
  split; [apply lookup_singleton_eq|].
  apply (read_decodes_every_line (λ row, Normal row)
           (CsvFileReader.new Sample.football_csv)
           {[Sample.football_csv := "2024-01-01,A,B,2,1,H,Cup"]}
           "2024-01-01,A,B,2,1,H,Cup").
  apply lookup_singleton_eq.
Defined.

(** * Further properties of the code *)

(** ** Splitting and joining *)

Section SplitFacts.
Context (sep : ascii).
Implicit Types (s piece : string) (pieces : list string).

Lemma join_cons piece piece' pieces :
  join sep (piece :: piece' :: pieces)
  = piece +:+ String sep (join sep (piece' :: pieces)).
Proof. reflexivity. Qed.

Lemma join_cons_String (c : ascii) piece pieces :
  join sep (String c piece :: pieces) = String c (join sep (piece :: pieces)).
Proof. by destruct pieces. Qed.

(** Splitting loses nothing: the pieces joined again are the text. *)
Lemma join_split s : join sep (split sep s) = s.
Proof.
  induction s as [|c s IH]; [done|]. cbn [split].
  destruct (split_cons sep s) as (piece & pieces & Hs). rewrite Hs in *.
  destruct (Ascii.eqb c sep) eqn:Hc.
  - apply Ascii.eqb_eq in Hc as ->.
    rewrite join_cons, IH. reflexivity.
  - by rewrite join_cons_String, IH.
Qed.

(** There is one piece more than there are separators. *)
Lemma length_split s : length (split sep s) = S (count_char sep s).
Proof.
  induction s as [|c s IH]; simpl; [done|].
  destruct (Ascii.eqb c sep); simpl; [by rewrite IH|].
  destruct (split_cons sep s) as (piece & pieces & Hs).
  by rewrite Hs in *.
Qed.

(** A piece has no more of any character than the text, and none of the
    separator. *)
Lemma count_char_piece (c : ascii) s piece :
  piece ∈ split sep s → count_char c piece ≤ count_char c s.
Proof.
  revert piece. induction s as [|c' s IH]; intros piece; simpl.
  - intros ->%list_elem_of_singleton. done.
  - destruct (Ascii.eqb c' sep).
    + intros [->|Hin]%elem_of_cons; simpl; [lia|].
      specialize (IH _ Hin). lia.
    + destruct (split_cons sep s) as (piece' & pieces & Hs). rewrite Hs in *.
      intros [->|Hin]%elem_of_cons; simpl.
      * assert (count_char c piece' ≤ count_char c s)
          by (apply IH; apply elem_of_cons; by left).
        lia.
      * assert (count_char c piece ≤ count_char c s)
          by (apply IH; apply elem_of_cons; by right).
        lia.
Qed.

Lemma count_sep_piece s piece :
  piece ∈ split sep s → count_char sep piece = 0.
Proof.
  revert piece. induction s as [|c' s IH]; intros piece; simpl.
  - intros ->%list_elem_of_singleton. done.
  - destruct (Ascii.eqb c' sep) eqn:Hc.
    + intros [->|Hin]%elem_of_cons; [done|]. by apply IH.
    + destruct (split_cons sep s) as (piece' & pieces & Hs). rewrite Hs in *.
      intros [->|Hin]%elem_of_cons; simpl.
      * rewrite Hc. simpl. apply IH, elem_of_cons. by left.
      * apply IH, elem_of_cons. by right.
Qed.

(** A text without the separator is its only piece. *)
Lemma split_atom s : count_char sep s = 0 → split sep s = [s].
Proof.
  induction s as [|c s IH]; simpl; [done|].
  destruct (Ascii.eqb c sep); simpl; [done|].
  intros Hs. by rewrite IH.
Qed.

Lemma split_app_sep s s' :
  count_char sep s = 0 →
  split sep (s +:+ String sep s') = s :: split sep s'.
Proof.
  induction s as [|c s IH]; simpl.
  - by rewrite Ascii.eqb_refl.
  - destruct (Ascii.eqb c sep); simpl; [done|].
    intros Hs. by rewrite IH.
Qed.

(** Joining loses nothing either, for pieces without the separator. *)
Lemma split_join pieces :
  pieces ≠ [] →
  Forall (λ piece, count_char sep piece = 0) pieces →
  split sep (join sep pieces) = pieces.
Proof.
  intros Hne Hall. induction Hall as [|piece pieces Hpiece Hall IH]; [done|].
  destruct pieces as [|piece' pieces].
  - simpl. by apply split_atom.
  - rewrite join_cons, split_app_sep by done. by rewrite IH.
Qed.

Lemma count_char_app (c : ascii) s s' :
  count_char c (s +:+ s') = count_char c s + count_char c s'.
Proof. induction s as [|c' s IH]; simpl; [done|]. rewrite IH. lia. Qed.

Lemma count_char_join (c : ascii) pieces :
  c ≠ sep →
  Forall (λ piece, count_char c piece = 0) pieces →
  count_char c (join sep pieces) = 0.
Proof.
  intros Hc Hall. induction Hall as [|piece pieces Hpiece Hall IH]; [done|].
  destruct pieces as [|piece' pieces]; [done|].
  rewrite join_cons, count_char_app, Hpiece. cbn [count_char]. rewrite IH.
  destruct (Ascii.eqb sep c) eqn:E; [|done].
  apply Ascii.eqb_eq in E. congruence.
Qed.
End SplitFacts.

(** ** The rows of a text *)

Lemma join_rows (text : string) :
  join LF (map (join COMMA) (CsvFileReader.rows text)) = text.
Proof.
  unfold CsvFileReader.rows. rewrite map_map.
  rewrite (map_ext _ id), map_id by (intros row; apply join_split).
  apply join_split.
Qed.

Lemma rows_fields (text : string) (row : list string) :
  row ∈ CsvFileReader.rows text →
  (∃ field rest, row = field :: rest) ∧ Forall clean row.
Proof.
  unfold CsvFileReader.rows. intros (line & -> & Hline)%list_elem_of_fmap.
  split; [apply split_cons|].
  apply Forall_forall. intros field Hfield. split.
  - by apply (count_sep_piece COMMA line).
  - pose proof (count_char_piece COMMA LF line field Hfield).
    pose proof (count_sep_piece LF text line Hline). lia.
Qed.

Lemma rows_join (table : list (list string)) :
  table ≠ [] →
  Forall (λ row, row ≠ [] ∧ Forall clean row) table →
  CsvFileReader.rows (join LF (map (join COMMA) table)) = table.
Proof.
  intros Hne Hall. unfold CsvFileReader.rows.
  rewrite split_join.
  - rewrite map_map. rewrite <- (map_id table) at 2.
    apply Forall_fmap_ext_1. eapply Forall_impl; [exact Hall|].
    intros row [Hrow Hclean]. apply split_join; [done|].
    eapply Forall_impl; [exact Hclean|]. by intros field [? ?].
  - by destruct table.
  - apply Forall_fmap. eapply Forall_impl; [exact Hall|].
    intros row [Hrow Hclean]. simpl. apply count_char_join; [done|].
    eapply Forall_impl; [exact Hclean|]. by intros field [? ?].
Qed.

Lemma length_rows (text : string) :
  length (CsvFileReader.rows text) = S (count_char LF text).
Proof. unfold CsvFileReader.rows. by rewrite length_map, length_split. Qed.

(** X1: the rows that [read] passes to [mapRow] lose nothing of the text:
    their fields joined by commas, and the lines so obtained joined by line
    feeds, are the text again. *)
Theorem rows_then_join (text : string) :
  join LF (map (join COMMA) (CsvFileReader.rows text)) = text.
Proof. apply join_rows. Qed.

(** X2: a table with at least one row, whose rows have at least one field
    and whose fields hold no comma and no line feed, is read back as it is
    from the text that joins its fields by commas and its rows by line
    feeds. *)
Theorem join_then_rows (table : list (list string)) :
  table ≠ [] →
  Forall (λ row, row ≠ [] ∧ Forall clean row) table →
  CsvFileReader.rows (join LF (map (join COMMA) table)) = table.
Proof. apply rows_join. Qed.

(** X3: every row [read] passes to [mapRow] has a first field, so that
    [row[0]] is a string, and no field of it holds a comma or a line
    feed. *)
Theorem rows_are_clean (text : string) (row : list string) :
  row ∈ CsvFileReader.rows text →
  (∃ field, row !! 0 = Some field) ∧ Forall clean row.
Proof.
  intros Hrow. destruct (rows_fields text row Hrow) as [(field & rest & ->) Hclean].
  split; [by exists field | done].
Qed.

Section CsvFileReaderFacts.
Context {T : Type} (mapRow : list string → Completion T).
Implicit Types (self : CsvFileReader.t T) (files : gmap string string).

Lemma read_missing self files :
  files !! CsvFileReader.filename self = None →
  CsvFileReader.read mapRow self files
  = (Throw (IOError (CsvFileReader.filename self)), files).
Proof.
  intros Hfile.
  unfold CsvFileReader.read, mbind, IO_bind, fs.readFileSync. by rewrite Hfile.
Qed.

Lemma read_files self files : (CsvFileReader.read mapRow self files).2 = files.
Proof.
  destruct (files !! CsvFileReader.filename self) as [text|] eqn:Hfile.
  - rewrite (read_unfold mapRow self files text Hfile).
    by destruct (mapM mapRow (CsvFileReader.rows text)).
  - by rewrite read_missing.
Qed.

Lemma mapM_length {A B : Type} (f : A → Completion B) (l : list A) (ys : list B) :
  mapM f l = Normal ys → length ys = length l.
Proof. intros Hall%mapM_Normal. symmetry. by eapply Forall2_length. Qed.

(** X4: a load that succeeds returns one record more than the text has line
    feeds; in particular it never returns no record, not even for the empty
    text. *)
Theorem read_length self files text self' files' :
  files !! CsvFileReader.filename self = Some text →
  CsvFileReader.read mapRow self files = (Normal self', files') →
  length (CsvFileReader.data self') = S (count_char LF text).
Proof.
  intros Hfile. rewrite (read_unfold mapRow self files text Hfile).
  destruct (mapM mapRow (CsvFileReader.rows text)) as [records|e] eqn:Hrows; [|done].
  intros [= <- _]. simpl.
  by rewrite (mapM_length _ _ _ Hrows), length_rows.
Qed.

(** X5: [read] writes no file, whatever it returns; when it succeeds the
    object keeps its file name; and the records it had before play no part:
    the data is replaced, not extended. *)
Theorem read_frame self files :
  (CsvFileReader.read mapRow self files).2 = files
  ∧ (∀ self', (CsvFileReader.read mapRow self files).1 = Normal self' →
       CsvFileReader.filename self' = CsvFileReader.filename self)
  ∧ (∀ old,
       CsvFileReader.read mapRow (CsvFileReader.mk (CsvFileReader.filename self) old) files
       = CsvFileReader.read mapRow self files).
Proof.
  split; [apply read_files|]. split.
  - intros self'.
    destruct (files !! CsvFileReader.filename self) as [text|] eqn:Hfile.
    + rewrite (read_unfold mapRow self files text Hfile).
      destruct (mapM mapRow (CsvFileReader.rows text)); simpl; [|done].
      by intros [= <-].
    + by rewrite read_missing.
  - intros old. by destruct self.
Qed.

(** X6: a load throws the exception of the first row that does not decode,
    whatever the rows after it are, and leaves the files as they were. *)
Theorem read_first_failure self files text before row after e :
  files !! CsvFileReader.filename self = Some text →
  CsvFileReader.rows text = before ++ row :: after →
  Forall (λ row', ∃ record, mapRow row' = Normal record) before →
  mapRow row = Throw e →
  CsvFileReader.read mapRow self files = (Throw e, files).
Proof.
  intros Hfile Hrows Hbefore Hrow.
  rewrite (read_unfold mapRow self files text Hfile), Hrows.
  by rewrite (mapM_first_Throw mapRow before after row e Hbefore Hrow).
Qed.
End CsvFileReaderFacts.

(** ** Numerals *)

Lemma length_app_string (s t : string) :
  String.length (s +:+ t) = String.length s + String.length t.
Proof. induction s as [|c s IH]; simpl; [done|]. by rewrite IH. Qed.

(** A common suffix can be cancelled (for a common prefix this is
    [String.app_inj]). *)
Lemma app_string_inj_r (t s1 s2 : string) : s1 +:+ t = s2 +:+ t → s1 = s2.
Proof.
  revert s2. induction s1 as [|c1 s1 IH]; intros [|c2 s2]; simpl; intros Heq.
  - done.
  - apply (f_equal String.length) in Heq.
    rewrite !length_app_string in Heq. simpl in Heq. exfalso. lia.
  - apply (f_equal String.length) in Heq.
    rewrite !length_app_string in Heq. simpl in Heq. exfalso. lia.
  - injection Heq as -> Heq. by rewrite (IH s2 Heq).
Qed.

Lemma is_digit_cases (c : ascii) :
  is_digit c = true →
  c ∈ ["0"; "1"; "2"; "3"; "4"; "5"; "6"; "7"; "8"; "9"]%char.
Proof.
  destruct c as [[] [] [] [] [] [] [] []]; intros Hc; vm_compute in Hc;
    try discriminate Hc; set_solver.
Qed.

(** A digit is no white space, no sign, and not the [x] of a radix
    prefix. *)
Lemma drop_white_digit (c : ascii) (s : string) :
  is_digit c = true → drop_white (String c s) = None.
Proof.
  intros Hc%is_digit_cases.
  repeat (apply elem_of_cons in Hc as [->|Hc]; [reflexivity|]).
  by apply elem_of_nil in Hc.
Qed.

Lemma TrimStart_digit (c : ascii) (s : string) :
  is_digit c = true → TrimStart (String c s) = String c s.
Proof.
  intros Hc. unfold TrimStart. cbn [String.length trim_start].
  by rewrite drop_white_digit.
Qed.

Lemma parse_digits_step (R : Z) (c : ascii) (s : string) (acc : option Z) (d : Z) :
  digit_value R c = Some d →
  parse_digits R (String c s) acc = parse_digits R s (Some (R * default 0 acc + d)%Z).
Proof. intros Hd. cbn [parse_digits]. by rewrite Hd. Qed.

Ltac numeral_digit IH d :=
  cbn [NilEmpty.string_of_uint Nat.of_uint_acc];
  rewrite (parse_digits_step 10 _ _ _ d) by reflexivity;
  rewrite <- IH; do 2 f_equal;
  rewrite Nat.tail_mul_spec; simpl (default _ _); lia.

(** The digits of a decimal number, read after the value [a] of the digits
    before them. *)
Lemma parse_digits_uint (d : Decimal.uint) (a : nat) :
  parse_digits 10 (NilEmpty.string_of_uint d) (Some (Z.of_nat a))
  = Some (Z.of_nat (Nat.of_uint_acc d a)).
Proof.
  revert a.
  induction d as [|d IH|d IH|d IH|d IH|d IH|d IH|d IH|d IH|d IH|d IH]; intros a.
  - done.
  - numeral_digit IH 0%Z.
  - numeral_digit IH 1%Z.
  - numeral_digit IH 2%Z.
  - numeral_digit IH 3%Z.
  - numeral_digit IH 4%Z.
  - numeral_digit IH 5%Z.
  - numeral_digit IH 6%Z.
  - numeral_digit IH 7%Z.
  - numeral_digit IH 8%Z.
  - numeral_digit IH 9%Z.
Qed.

Lemma string_of_uint_digit (d : Decimal.uint) :
  d ≠ Decimal.Nil →
  ∃ c s, NilEmpty.string_of_uint d = String c s ∧ is_digit c = true
         ∧ (s = EmptyString ∨ ∃ c' s', s = String c' s' ∧ is_digit c' = true).
Proof.
  intros Hd. destruct d as [|d|d|d|d|d|d|d|d|d|d]; [done|..];
    (eexists _, _; split; [reflexivity|]; split; [reflexivity|]);
    (destruct d; [by left|..]; right; eexists _, _; split; reflexivity).
Qed.

Lemma digit_value_digit (c : ascii) :
  is_digit c = true → is_Some (digit_value 10 c).
Proof.
  intros Hc%is_digit_cases.
  repeat (apply elem_of_cons in Hc as [->|Hc]; [eexists; reflexivity|]).
  by apply elem_of_nil in Hc.
Qed.

Lemma parse_digits_None (R : Z) (c : ascii) (s : string) :
  is_Some (digit_value R c) →
  parse_digits R (String c s) None = parse_digits R (String c s) (Some 0%Z).
Proof. intros [d Hd]. cbn [parse_digits]. by rewrite Hd. Qed.

Lemma parseInt_digits (c : ascii) (s : string) :
  is_digit c = true →
  (s = EmptyString ∨ ∃ c' s', s = String c' s' ∧ is_digit c' = true) →
  parseInt (Some (String c s))
  = match parse_digits 10 (String c s) (Some 0%Z) with
    | Some mathInt => to_double 1 mathInt
    | None => NaN
    end.
Proof.
  intros Hc Hs.
  assert (match parse_digits 10 (String c s) None with
          | Some mathInt => to_double 1 mathInt
          | None => NaN
          end
          = match parse_digits 10 (String c s) (Some 0%Z) with
            | Some mathInt => to_double 1 mathInt
            | None => NaN
            end) as Hgoal.
  { by rewrite parse_digits_None by by apply digit_value_digit. }
  unfold parseInt, ToString. rewrite (TrimStart_digit c s Hc).
  apply is_digit_cases in Hc.
  destruct Hs as [->|(c' & s' & -> & Hc'%is_digit_cases)].
  - repeat (apply elem_of_cons in Hc as [->|Hc]; [exact Hgoal|]).
    by apply elem_of_nil in Hc.
  - repeat (apply elem_of_cons in Hc as [->|Hc];
            [repeat (apply elem_of_cons in Hc' as [->|Hc']; [exact Hgoal|]);
             by apply elem_of_nil in Hc'|]).
    by apply elem_of_nil in Hc.
Qed.

(** The digits that a template literal prints for a counter write the
    counter. *)
Lemma NumberToString_digit (n : nat) :
  ∃ c s, NumberToString n = String c s ∧ is_digit c = true
         ∧ (s = EmptyString ∨ ∃ c' s', s = String c' s' ∧ is_digit c' = true).
Proof.
  unfold NumberToString, NilZero.string_of_uint.
  assert (Nat.to_uint n ≠ Decimal.Nil) as Hnil.
  { rewrite <- (DecimalNat.Unsigned.of_to n) at 1.
    rewrite DecimalNat.Unsigned.to_of. apply DecimalFacts.unorm_nonnil. }
  assert (NilEmpty.string_of_uint (Nat.to_uint n)
          = match Nat.to_uint n with
            | Decimal.Nil => "0"
            | _ => NilEmpty.string_of_uint (Nat.to_uint n)
            end) as <- by (by destruct (Nat.to_uint n)).
  by apply string_of_uint_digit.
Qed.

Lemma parse_digits_NumberToString (n : nat) :
  parse_digits 10 (NumberToString n) (Some 0%Z) = Some (Z.of_nat n).
Proof.
  assert (NumberToString n = NilEmpty.string_of_uint (Nat.to_uint n)) as ->.
  { unfold NumberToString, NilZero.string_of_uint.
    destruct (Nat.to_uint n) eqn:E; try done.
    exfalso. revert E.
    rewrite <- (DecimalNat.Unsigned.of_to n) at 1.
    rewrite DecimalNat.Unsigned.to_of. apply DecimalFacts.unorm_nonnil. }
  change (Some 0%Z) with (Some (Z.of_nat 0)).
  rewrite (parse_digits_uint (Nat.to_uint n) 0).
  change (Nat.of_uint_acc (Nat.to_uint n) 0) with (Nat.of_uint (Nat.to_uint n)).
  by rewrite DecimalNat.Unsigned.of_to.
Qed.

(** [parseInt] reads the decimal numeral of a natural number as the double
    nearest to the number. *)
Lemma parseInt_NumberToString (n : nat) :
  parseInt (Some (NumberToString n)) = to_double 1 (Z.of_nat n).
Proof.
  destruct (NumberToString_digit n) as (c & s & Hstr & Hc & Hs).
  rewrite Hstr, (parseInt_digits c s Hc Hs), <- Hstr.
  by rewrite parse_digits_NumberToString.
Qed.

(** Below 2^53 every natural number is a double. *)
Lemma to_double_exact (z : Z) :
  (0 ≤ z < 2 ^ 53)%Z → to_double 1 z = Num z.
Proof.
  intros [Hpos Hsmall]. unfold to_double, round53.
  assert ((z <? 2 ^ 53)%Z = true) as -> by by apply Z.ltb_lt.
  assert ((2 ^ 53 < 2 ^ 1024)%Z) by (apply Z.pow_lt_mono_r; lia).
  assert ((2 ^ 1024 <=? z)%Z = false) as -> by (apply Z.leb_gt; lia).
  destruct (z =? 0)%Z eqn:Hz.
  - apply Z.eqb_eq in Hz as ->. reflexivity.
  - f_equal. lia.
Qed.

Lemma NumberToString_inj (n n' : nat) :
  NumberToString n = NumberToString n' → n = n'.
Proof.
  intros Heq.
  pose proof (parse_digits_NumberToString n) as Hn.
  rewrite Heq, parse_digits_NumberToString in Hn.
  injection Hn. lia.
Qed.

(** ** Further properties of the wins analysis *)

Section WinsAnalysisMore.
Context {Date : Type}.
Implicit Types (self other : WinsAnalysis.t) (m : MatchData Date)
  (ms xs ys : list (MatchData Date)).

Lemma teamWins_insert self xs m ys :
  WinsAnalysis.teamWins self (xs ++ m :: ys)
  = (if WinsAnalysis.isWin self m then 1 else 0)
    + WinsAnalysis.teamWins self (xs ++ ys).
Proof. rewrite !wins_of_concat, teamWins_cons. lia. Qed.

Lemma isWin_result self m :
  m5 m ≠ Some MatchResult.HomeWin →
  m5 m ≠ Some MatchResult.AwayWin →
  WinsAnalysis.isWin self m = false.
Proof.
  intros Hhome Haway.
  destruct (WinsAnalysis.isWin self m) eqn:E; [|done].
  apply isWin_spec in E as [[_ ?]|[_ ?]]; done.
Qed.

Lemma isWin_one_team self other m :
  WinsAnalysis.team self ≠ WinsAnalysis.team other →
  WinsAnalysis.isWin self m = true →
  WinsAnalysis.isWin other m = false.
Proof.
  intros Hteams Hself.
  destruct (WinsAnalysis.isWin other m) eqn:Hother; [|done].
  apply isWin_spec in Hself, Hother.
  unfold WinFor, MatchResult.HomeWin, MatchResult.AwayWin in *.
  destruct Hself as [[H1 H5]|[H2 H5]], Hother as [[H1' H5']|[H2' H5']];
    congruence.
Qed.

(** X7: the count is at most the number of records. *)
Theorem teamWins_le_length self ms :
  WinsAnalysis.teamWins self ms ≤ length ms.
Proof.
  induction ms as [|m ms IH]; [done|].
  rewrite teamWins_cons. simpl. destruct (WinsAnalysis.isWin self m); lia.
Qed.

(** X8: no record counts for two different teams: the counts of two
    analyses with different team names add up to at most the number of
    records. *)
Theorem teamWins_two_teams self other ms :
  WinsAnalysis.team self ≠ WinsAnalysis.team other →
  WinsAnalysis.teamWins self ms + WinsAnalysis.teamWins other ms ≤ length ms.
Proof.
  intros Hteams. induction ms as [|m ms IH]; [done|].
  rewrite !teamWins_cons. simpl.
  destruct (WinsAnalysis.isWin self m) eqn:Hself.
  - rewrite (isWin_one_team self other m Hteams Hself). lia.
  - destruct (WinsAnalysis.isWin other m); lia.
Qed.

(** X9: a record whose result is neither ["H"] nor ["A"] (a draw, an
    unknown token, no result at all) counts for no team, wherever it stands
    in the list. *)
Theorem teamWins_no_winner self xs m ys :
  m5 m ≠ Some MatchResult.HomeWin →
  m5 m ≠ Some MatchResult.AwayWin →
  WinsAnalysis.teamWins self (xs ++ m :: ys) = WinsAnalysis.teamWins self (xs ++ ys).
Proof.
  intros Hhome Haway.
  by rewrite teamWins_insert, (isWin_result self m Hhome Haway).
Qed.

(** X10: a home win of the team at home, or an away win of the team away,
    adds exactly one to the count, wherever it stands in the list. *)
Theorem teamWins_win self xs m ys :
  (m1 m = Some (WinsAnalysis.team self) ∧ m5 m = Some MatchResult.HomeWin)
  ∨ (m2 m = Some (WinsAnalysis.team self) ∧ m5 m = Some MatchResult.AwayWin) →
  WinsAnalysis.teamWins self (xs ++ m :: ys)
  = S (WinsAnalysis.teamWins self (xs ++ ys)).
Proof.
  intros Hwin%isWin_spec. by rewrite teamWins_insert, Hwin.
Qed.

(** X11: the string [run] returns tells the count: two lists give the same
    string exactly when they give the same count. *)
Theorem run_tells_count self ms ms' :
  WinsAnalysis.run self ms = WinsAnalysis.run self ms'
  ↔ WinsAnalysis.teamWins self ms = WinsAnalysis.teamWins self ms'.
Proof.
  unfold WinsAnalysis.run. split; [|by intros ->].
  intros Heq. apply String.app_inj, String.app_inj in Heq.
  by apply app_string_inj_r, NumberToString_inj in Heq.
Qed.
End WinsAnalysisMore.

Lemma teamWins_two_teams_witness :
  WinsAnalysis.team (WinsAnalysis.new "A") ≠ WinsAnalysis.team (WinsAnalysis.new "B")
  ∧ WinsAnalysis.teamWins (WinsAnalysis.new "A") [Sample.A_beats_B; Sample.B_draws_A]
    + WinsAnalysis.teamWins (WinsAnalysis.new "B") [Sample.A_beats_B; Sample.B_draws_A]
    ≤ length [Sample.A_beats_B; Sample.B_draws_A].
Proof.
  split; [discriminate|].
  apply (teamWins_two_teams (WinsAnalysis.new "A") (WinsAnalysis.new "B")
           [Sample.A_beats_B; Sample.B_draws_A]).
  discriminate.
Defined.

Lemma teamWins_no_winner_witness :
  m5 Sample.B_draws_A ≠ Some MatchResult.HomeWin
  ∧ m5 Sample.B_draws_A ≠ Some MatchResult.AwayWin
  ∧ WinsAnalysis.teamWins (WinsAnalysis.new "A")
      ([Sample.A_beats_B] ++ Sample.B_draws_A :: [Sample.C_beats_D])
    = WinsAnalysis.teamWins (WinsAnalysis.new "A")
        ([Sample.A_beats_B] ++ [Sample.C_beats_D]).
Proof.
  split; [discriminate|]. split; [discriminate|].
  apply (teamWins_no_winner (WinsAnalysis.new "A") [Sample.A_beats_B]
           Sample.B_draws_A [Sample.C_beats_D]); discriminate.
Defined.

Lemma teamWins_win_witness :
  ((m1 Sample.A_beats_B = Some (WinsAnalysis.team (WinsAnalysis.new "A"))
    ∧ m5 Sample.A_beats_B = Some MatchResult.HomeWin)
   ∨ (m2 Sample.A_beats_B = Some (WinsAnalysis.team (WinsAnalysis.new "A"))
      ∧ m5 Sample.A_beats_B = Some MatchResult.AwayWin))
  ∧ WinsAnalysis.teamWins (WinsAnalysis.new "A")
      ([Sample.B_draws_A] ++ Sample.A_beats_B :: [Sample.C_beats_D])
    = S (WinsAnalysis.teamWins (WinsAnalysis.new "A")
           ([Sample.B_draws_A] ++ [Sample.C_beats_D])).
Proof.
  split; [by left|].
  apply (teamWins_win (WinsAnalysis.new "A") [Sample.B_draws_A]
           Sample.A_beats_B [Sample.C_beats_D]).
  by left.
Defined.

(** ** Further properties of the match reader *)

Section MatchReaderMore.
Context {Date : Type} (dateStringToDate : option string → Completion Date).
Implicit Types (row extra : list string) (files : gmap string string)
  (self : CsvFileReader.t (MatchData Date)).

Lemma mapRow_result row record :
  MatchReader.mapRow dateStringToDate row = Normal record → m5 record = row !! 5.
Proof.
  unfold MatchReader.mapRow.
  destruct (dateStringToDate (row !! 0)) as [date|e]; simpl; [|done].
  by intros [= <-].
Qed.

(** X12: a row of seven fields whose date the helper reads and whose goals
    are written in decimal and are below 2^53 (beyond, [parseInt] rounds to
    a double) decodes to the record of these fields, the goals as the
    numbers written; the teams, the result and the competition are taken as
    they are. *)
Theorem mapRow_decimal_goals (date : Date)
    (field0 home away result competition : string) (homeGoals awayGoals : nat) :
  (Z.of_nat homeGoals < 2 ^ 53)%Z →
  (Z.of_nat awayGoals < 2 ^ 53)%Z →
  dateStringToDate (Some field0) = Normal date →
  MatchReader.mapRow dateStringToDate
    [field0; home; away; NumberToString homeGoals; NumberToString awayGoals;
     result; competition]
  = Normal (mkMatchData date (Some home) (Some away)
              (Num (Z.of_nat homeGoals)) (Num (Z.of_nat awayGoals))
              (Some result) (Some competition)).
Proof.
  intros Hhome Haway Hdate.
  rewrite (mapRow_Normal dateStringToDate
             [field0; home; away; NumberToString homeGoals;
              NumberToString awayGoals; result; competition] date Hdate).
  cbn [lookup list_lookup].
  by rewrite !parseInt_NumberToString, !to_double_exact by lia.
Qed.

Lemma short_row_run row record (w : WinsAnalysis.t) (ms : list (MatchData Date)) :
  length row ≤ 5 →
  MatchReader.mapRow dateStringToDate row = Normal record →
  m5 record = None
  ∧ WinsAnalysis.run w (ms ++ [record]) = WinsAnalysis.run w ms.
Proof.
  intros Hshort Hrecord%mapRow_result.
  assert (m5 record = None) as Hnone.
  { rewrite Hrecord. apply lookup_ge_None. lia. }
  split; [done|]. unfold WinsAnalysis.run.
  rewrite teamWins_insert, isWin_result by (by rewrite Hnone).
  by rewrite app_nil_r.
Qed.

(** X13: a row of fewer than six fields decodes to a record without a
    result, which adds to the count of no team: the record of an empty or
    truncated line does not change what the wins analysis reports. *)
Theorem short_row_never_counts row record (w : WinsAnalysis.t)
    (ms : list (MatchData Date)) :
  length row ≤ 5 →
  MatchReader.mapRow dateStringToDate row = Normal record →
  m5 record = None
  ∧ WinsAnalysis.run w (ms ++ [record]) = WinsAnalysis.run w ms.
Proof. apply short_row_run. Qed.

(** X14: the fields of a row after the seventh are ignored. *)
Theorem mapRow_ignores_extra_fields row extra :
  7 ≤ length row →
  MatchReader.mapRow dateStringToDate (row ++ extra)
  = MatchReader.mapRow dateStringToDate row.
Proof.
  intros Hlong. unfold MatchReader.mapRow.
  by rewrite !lookup_app_l by lia.
Qed.

Lemma mapM_snoc {A B : Type} (f : A → Completion B) (l : list A) (x : A)
    (ys : list B) (y : B) :
  mapM f l = Normal ys → f x = Normal y → mapM f (l ++ [x]) = Normal (ys ++ [y]).
Proof.
  intros Hl%mapM_Normal Hx. apply mapM_Normal.
  apply Forall2_app; [done|]. by repeat constructor.
Qed.

(** X15: with a date helper that does not throw on the empty string, a line
    feed added at the end of the file adds one record to a load that
    succeeds, and leaves the string that the wins analysis returns as it
    was. *)
Theorem trailing_LF_same_report self files files' text reader
    (date : Date) (w : WinsAnalysis.t) :
  files !! CsvFileReader.filename self = Some text →
  files' !! CsvFileReader.filename self = Some (text +:+ String LF EmptyString) →
  dateStringToDate (Some EmptyString) = Normal date →
  MatchReader.read dateStringToDate self files = (Normal reader, files) →
  ∃ reader',
    MatchReader.read dateStringToDate self files' = (Normal reader', files')
    ∧ length (CsvFileReader.data reader') = S (length (CsvFileReader.data reader))
    ∧ WinsAnalysis.run w (CsvFileReader.data reader')
      = WinsAnalysis.run w (CsvFileReader.data reader).
Proof.
  intros Hfile Hfile' Hdate. unfold MatchReader.read.
  rewrite (read_unfold _ self files text Hfile).
  rewrite (read_unfold _ self files' _ Hfile'), rows_trailing_LF.
  destruct (mapM _ (CsvFileReader.rows text)) as [records|e] eqn:Hrows; [|done].
  intros [= <-].
  pose proof (mapRow_Normal dateStringToDate [EmptyString] date Hdate) as Hlast.
  rewrite (mapM_snoc _ _ _ records _ Hrows Hlast).
  eexists. split; [done|]. simpl. split; [rewrite length_app; simpl; lia|].
  exact (proj2 (short_row_run [EmptyString] _ w records ltac:(simpl; lia) Hlast)).
Qed.
End MatchReaderMore.

(** ** Further properties of the report and of the orchestrator *)

Lemma html_inj (report1 report2 : string) :
  HTMLReport.html report1 = HTMLReport.html report2 → report1 = report2.
Proof.
  unfold HTMLReport.html. intros Heq.
  do 3 apply String.app_inj in Heq.
  by apply app_string_inj_r in Heq.
Qed.

(** X16: the document tells the report: the texts that [print] hands to
    the write for two reports are equal exactly when the reports are. *)
Theorem html_tells_report (report1 report2 : string) :
  HTMLReport.html report1 = HTMLReport.html report2 ↔ report1 = report2.
Proof. split; [apply html_inj | by intros ->]. Qed.

Section SummaryMore.
Context {Date : Type}.
Implicit Types (w : WinsAnalysis.t) (target : OutputTarget.t)
  (ms : list (MatchData Date)) (files : gmap string string).

Lemma buildAndPrintReport_wins w target ms files :
  Summary.buildAndPrintReport (Summary.new (WinsAnalysis.implements w) target) ms files
  = OutputTarget.print target (WinsAnalysis.run w ms) files.
Proof. reflexivity. Qed.

(** X17: with a wins analysis and any output target, the orchestrator does
    to the files what [print] of the target does on the string of the
    analysis, the analysis itself touching no file and never throwing; so
    the outcome is the same on a permutation of the records. *)
Theorem buildAndPrintReport_Permutation w target ms ms' files :
  ms ≡ₚ ms' →
  Summary.buildAndPrintReport (Summary.new (WinsAnalysis.implements w) target) ms files
  = OutputTarget.print target (WinsAnalysis.run w ms) files
  ∧ Summary.buildAndPrintReport (Summary.new (WinsAnalysis.implements w) target) ms' files
    = Summary.buildAndPrintReport (Summary.new (WinsAnalysis.implements w) target) ms files.
Proof.
  intros Hperm. split; [done|].
  rewrite !buildAndPrintReport_wins. unfold WinsAnalysis.run.
  by rewrite (teamWins_Permutation w ms ms' Hperm).
Qed.

End SummaryMore.

Section ReportMore.
Context {Date : Type} {fsys : FileSystem}.
Implicit Types (w : WinsAnalysis.t) (ms : list (MatchData Date))
  (files : gmap string string).

(** X18: two reports to the file target, one after the other, as the entry
    point makes them: when both writes return, the file holds the second
    report only, and every path that names another file has the content it
    had. *)
Theorem second_report_replaces_first w (h : HTMLReport.t) (teamName : string)
    ms ms' files files' :
  (Summary.buildAndPrintReport
     (Summary.new (WinsAnalysis.implements w) (HTMLReport.implements h)) ms
   ≫= λ _, Summary.buildAndPrintReport
             (Summary.winsAnalysisWithHtmlReport teamName) ms') files
  = (Normal (), files') →
  files' !! "./report.html"
  = Some (HTMLReport.html (WinsAnalysis.run (WinsAnalysis.new teamName) ms'))
  ∧ ∀ path : string,
      ¬ same_file "./report.html" path → files' !! path = files !! path.
Proof.
  unfold mbind at 1. unfold IO_bind.
  rewrite buildAndPrintReport_wins. cbn [OutputTarget.print HTMLReport.implements].
  pose proof (print_frame h (WinsAnalysis.run w ms) files) as Hframe1.
  destruct (HTMLReport.print h (WinsAnalysis.run w ms) files) as [[[]|e] files1];
    [|done].
  unfold Summary.winsAnalysisWithHtmlReport.
  rewrite buildAndPrintReport_wins. cbn [OutputTarget.print HTMLReport.implements].
  intros Hsecond. split; [by apply (print_Normal _ _ _ _ Hsecond)|].
  intros path Hpath.
  pose proof (print_frame HTMLReport.new
                (WinsAnalysis.run (WinsAnalysis.new teamName) ms') files1 path Hpath)
    as Hframe2.
  rewrite Hsecond in Hframe2. simpl in *. rewrite Hframe2. by apply Hframe1.
Qed.

(** X19: a load followed by a report of the wins of a team to the file
    target: when the load throws, for a missing file or a row that does
    not decode, the exception is that of the load, no write is made and the
    files are as they were; when it succeeds, what happens is the one
    write of the report of the records read. *)
Theorem load_then_report (dateStringToDate : option string → Completion Date)
    (self : CsvFileReader.t (MatchData Date)) (teamName : string) files :
  (MatchReader.read dateStringToDate self
   ≫= λ reader, Summary.buildAndPrintReport
                  (Summary.winsAnalysisWithHtmlReport teamName)
                  (CsvFileReader.data reader)) files
  = match (MatchReader.read dateStringToDate self files).1 with
    | Normal reader =>
        fs.writeFileSync "./report.html"
          (HTMLReport.html (WinsAnalysis.run (WinsAnalysis.new teamName)
                              (CsvFileReader.data reader)))
          files
    | Throw e => (Throw e, files)
    end.
Proof.
  unfold mbind at 1. unfold IO_bind.
  pose proof (read_files (MatchReader.mapRow dateStringToDate) self files) as Hfiles.
  unfold MatchReader.read in *.
  destruct (CsvFileReader.read _ self files) as [[reader|e] files'];
    simpl in *; subst files'; reflexivity.
Qed.
End ReportMore.

(** ** The further properties on the sample data *)

Lemma join_then_rows_witness :
  CsvFileReader.rows
    (join LF (map (join COMMA)
       [["2024-01-01"; "A"; "B"; "2"; "1"; "H"; "Cup"]; [""]; ["x"; ""]]))
  = [["2024-01-01"; "A"; "B"; "2"; "1"; "H"; "Cup"]; [""]; ["x"; ""]].
Proof.
  apply (join_then_rows
           [["2024-01-01"; "A"; "B"; "2"; "1"; "H"; "Cup"]; [""]; ["x"; ""]]).
  - discriminate.
  - repeat (constructor; [split; [discriminate|repeat (constructor; [by split|])]|]);
      constructor.
Defined.

Lemma rows_are_clean_witness :
  (∃ field, ["B"; "A"] !! 0 = Some field) ∧ Forall clean ["B"; "A"].
Proof.
  apply (rows_are_clean (Sample.unlines ["A,B"; "B,A"]) ["B"; "A"]).
  vm_compute. do 2 constructor.
Defined.

Lemma read_length_witness :
  length (CsvFileReader.data
            (CsvFileReader.mk Sample.football_csv
               [["2024-01-01"; "A"; "B"; "2"; "1"; "H"; "Cup"]; [""]]))
  = S (count_char LF (Sample.unlines ["2024-01-01,A,B,2,1,H,Cup"; ""])).
Proof.
  apply (read_length (λ row, Normal row) (CsvFileReader.new Sample.football_csv)
           {[Sample.football_csv := Sample.unlines ["2024-01-01,A,B,2,1,H,Cup"; ""]]}
           (Sample.unlines ["2024-01-01,A,B,2,1,H,Cup"; ""])
           _
           {[Sample.football_csv := Sample.unlines ["2024-01-01,A,B,2,1,H,Cup"; ""]]}).
  - apply lookup_singleton_eq.
  - rewrite (read_unfold _ _ _ (Sample.unlines ["2024-01-01,A,B,2,1,H,Cup"; ""]))
      by apply lookup_singleton_eq.
    reflexivity.
Defined.

Lemma read_first_failure_witness :
  MatchReader.read utils.dateStringToDate (CsvFileReader.new Sample.football_csv)
    {[Sample.football_csv :=
        Sample.unlines ["2024-01-01,A,B,2,1,H,Cup"; "yesterday,B,A,0,0,D,Cup";
                        "2024-02-30,C,D,3,0,H,Cup"]]}
  = (Throw (DecodeError "yesterday"),
     {[Sample.football_csv :=
         Sample.unlines ["2024-01-01,A,B,2,1,H,Cup"; "yesterday,B,A,0,0,D,Cup";
                         "2024-02-30,C,D,3,0,H,Cup"]]}).
Proof.
  apply (read_first_failure (MatchReader.mapRow utils.dateStringToDate)
           (CsvFileReader.new Sample.football_csv) _
           (Sample.unlines ["2024-01-01,A,B,2,1,H,Cup"; "yesterday,B,A,0,0,D,Cup";
                            "2024-02-30,C,D,3,0,H,Cup"])
           [["2024-01-01"; "A"; "B"; "2"; "1"; "H"; "Cup"]]
           ["yesterday"; "B"; "A"; "0"; "0"; "D"; "Cup"]
           [["2024-02-30"; "C"; "D"; "3"; "0"; "H"; "Cup"]]).
  - apply lookup_singleton_eq.
  - reflexivity.
  - constructor; [|constructor]. eexists. reflexivity.
  - reflexivity.
Defined.

Lemma mapRow_decimal_goals_witness :
  (Z.of_nat 12 < 2 ^ 53)%Z
  ∧ (Z.of_nat 0 < 2 ^ 53)%Z
  ∧ utils.dateStringToDate (Some "2024-01-01") = Normal (utils.mkDate 2024 1 1)
  ∧ MatchReader.mapRow utils.dateStringToDate
      ["2024-01-01"; "A"; "B"; NumberToString 12; NumberToString 0; "H"; "Cup"]
    = Normal (mkMatchData (utils.mkDate 2024 1 1) (Some "A") (Some "B")
                (Num (Z.of_nat 12)) (Num (Z.of_nat 0)) (Some "H") (Some "Cup")).
Proof.
  split; [reflexivity|]. split; [reflexivity|]. split; [reflexivity|].
  apply (mapRow_decimal_goals utils.dateStringToDate (utils.mkDate 2024 1 1)
           "2024-01-01" "A" "B" "H" "Cup" 12 0); reflexivity.
Defined.

Lemma short_row_never_counts_witness :
  m5 (mkMatchData (utils.mkDate 2024 1 1) (Some "A") None NaN NaN None None) = None
  ∧ WinsAnalysis.run (WinsAnalysis.new "A")
      ([Sample.A_beats_B]
       ++ [mkMatchData (utils.mkDate 2024 1 1) (Some "A") None NaN NaN None None])
    = WinsAnalysis.run (WinsAnalysis.new "A") [Sample.A_beats_B].
Proof.
  apply (short_row_never_counts utils.dateStringToDate ["2024-01-01"; "A"]).
  - simpl. lia.
  - reflexivity.
Defined.

Lemma mapRow_ignores_extra_fields_witness :
  MatchReader.mapRow utils.dateStringToDate
    (["2024-01-01"; "A"; "B"; "2"; "1"; "H"; "Cup"] ++ ["Wembley"; "80000"])
  = MatchReader.mapRow utils.dateStringToDate
      ["2024-01-01"; "A"; "B"; "2"; "1"; "H"; "Cup"].
Proof.
  apply (mapRow_ignores_extra_fields utils.dateStringToDate
           ["2024-01-01"; "A"; "B"; "2"; "1"; "H"; "Cup"] ["Wembley"; "80000"]).
  simpl. lia.
Defined.

(** A date helper that keeps the text of the field, and so accepts the
    empty one. *)
Lemma trailing_LF_same_report_witness :
  ∃ reader',
    MatchReader.read (λ dateString, Normal (ToString dateString))
      (CsvFileReader.new Sample.football_csv)
      {[Sample.football_csv := "2024-01-01,A,B,2,1,H,Cup" +:+ String LF EmptyString]}
    = (Normal reader',
       {[Sample.football_csv := "2024-01-01,A,B,2,1,H,Cup" +:+ String LF EmptyString]})
    ∧ length (CsvFileReader.data reader')
      = S (length (CsvFileReader.data
                     (CsvFileReader.mk Sample.football_csv
                        [mkMatchData "2024-01-01" (Some "A") (Some "B") (Num 2) (Num 1)
                           (Some "H") (Some "Cup")])))
    ∧ WinsAnalysis.run (WinsAnalysis.new "A") (CsvFileReader.data reader')
      = WinsAnalysis.run (WinsAnalysis.new "A")
          (CsvFileReader.data
             (CsvFileReader.mk Sample.football_csv
                [mkMatchData "2024-01-01" (Some "A") (Some "B") (Num 2) (Num 1)
                   (Some "H") (Some "Cup")])).
Proof.
  apply (trailing_LF_same_report (λ dateString, Normal (ToString dateString))
           (CsvFileReader.new Sample.football_csv)
           {[Sample.football_csv := "2024-01-01,A,B,2,1,H,Cup"]}
           _ "2024-01-01,A,B,2,1,H,Cup" _ "").
  - apply lookup_singleton_eq.
  - apply lookup_singleton_eq.
  - reflexivity.
  - unfold MatchReader.read.
    rewrite (read_unfold _ _ _ "2024-01-01,A,B,2,1,H,Cup") by apply lookup_singleton_eq.
    reflexivity.
Defined.

Lemma buildAndPrintReport_Permutation_witness :
  [Sample.A_beats_B; Sample.B_draws_A] ≡ₚ [Sample.B_draws_A; Sample.A_beats_B]
  ∧ Summary.buildAndPrintReport
      (Summary.new (WinsAnalysis.implements (WinsAnalysis.new "A"))
                   (HTMLReport.implements (fsys := Sample.disk) HTMLReport.new))
      [Sample.A_beats_B; Sample.B_draws_A] ∅
    = OutputTarget.print (HTMLReport.implements (fsys := Sample.disk) HTMLReport.new)
        (WinsAnalysis.run (WinsAnalysis.new "A") [Sample.A_beats_B; Sample.B_draws_A]) ∅
  ∧ Summary.buildAndPrintReport
      (Summary.new (WinsAnalysis.implements (WinsAnalysis.new "A"))
                   (HTMLReport.implements (fsys := Sample.disk) HTMLReport.new))
      [Sample.B_draws_A; Sample.A_beats_B] ∅
    = Summary.buildAndPrintReport
        (Summary.new (WinsAnalysis.implements (WinsAnalysis.new "A"))
                     (HTMLReport.implements (fsys := Sample.disk) HTMLReport.new))
        [Sample.A_beats_B; Sample.B_draws_A] ∅.
Proof.
  split; [apply perm_swap|].
  apply (buildAndPrintReport_Permutation (WinsAnalysis.new "A")
           (HTMLReport.implements (fsys := Sample.disk) HTMLReport.new)
           [Sample.A_beats_B; Sample.B_draws_A] [Sample.B_draws_A; Sample.A_beats_B] ∅).
  apply perm_swap.
Defined.

Lemma second_report_replaces_first_witness :
  (<["./report.html" :=
       HTMLReport.html (WinsAnalysis.run (WinsAnalysis.new "B")
                          [Sample.A_beats_B; Sample.B_draws_A])]>
     (<["./report.html" :=
          HTMLReport.html (WinsAnalysis.run (WinsAnalysis.new "A") [Sample.A_beats_B])]>
        {[Sample.football_csv := "2024-01-01,A,B,2,1,H,Cup"]}) : gmap string string)
    !! "./report.html"
  = Some (HTMLReport.html (WinsAnalysis.run (WinsAnalysis.new "B")
                             [Sample.A_beats_B; Sample.B_draws_A]))
  ∧ ∀ path : string,
      ¬ same_file (FileSystem := Sample.disk) "./report.html" path →
      (<["./report.html" :=
           HTMLReport.html (WinsAnalysis.run (WinsAnalysis.new "B")
                              [Sample.A_beats_B; Sample.B_draws_A])]>
         (<["./report.html" :=
              HTMLReport.html (WinsAnalysis.run (WinsAnalysis.new "A") [Sample.A_beats_B])]>
            {[Sample.football_csv := "2024-01-01,A,B,2,1,H,Cup"]}) : gmap string string)
        !! path
      = ({[Sample.football_csv := "2024-01-01,A,B,2,1,H,Cup"]} : gmap string string)
          !! path.
Proof.
  apply (second_report_replaces_first (fsys := Sample.disk) (WinsAnalysis.new "A")
           HTMLReport.new "B" [Sample.A_beats_B] [Sample.A_beats_B; Sample.B_draws_A]
           {[Sample.football_csv := "2024-01-01,A,B,2,1,H,Cup"]}).
  reflexivity.
Defined.
